(** * Employee attrition dashboard: filter engine and report builder

    A shallow embedding of [attrition_dashboard.py].  The script loads one
    table, selects rows with boolean masks built from the sidebar controls,
    derives scalar metrics and grouped counts from the selection, and
    assembles the content of a PDF report.

    Modelling conventions.

    - A pandas [DataFrame] is the list of its rows, in index order; a
      [Series] is the list of its values in the same order.  Every mask the
      script builds comes from columns of the frame it is applied to, so
      positional alignment is index alignment.
    - The integer columns ([int64]) are [Z]; the script only compares them
      and hands them to [mean], which sums in floating point, so no
      wrap-around occurs.  The text columns are [string].  A [Row] has
      all its cells; where a missing cell changes what the script computes,
      in the grouped counts, the columns are taken with their cells as the
      frame holds them (module [Loaded]).
    - A Python float is either a finite value, kept as the exact rational
      it approximates, or [NaN].  Rounding of finite values to binary64 is
      not modelled; whether a value is [NaN] is exact. *)

From Stdlib Require Import List ZArith String Ascii Bool Lia QArith Qabs.
From Stdlib Require Import Permutation Sorted DecimalString DecimalZ.
Import ListNotations.

Open Scope Z_scope.

(** ** The Python built-ins the script uses *)

Module Python.

(** [str(n)] for a Python int: decimal digits, with a leading minus sign
    for negative numbers. *)
Definition str (n : Z) : string := NilZero.string_of_int (Z.to_int n).

(** Truthiness of a Python [str]: every string but the empty one. *)
Definition truthy (s : string) : bool :=
  match s with
  | EmptyString => false
  | String _ _ => true
  end.

Inductive pyfloat : Type :=
| Finite (q : Q)
| NaN.

Definition is_nan (x : pyfloat) : bool :=
  match x with
  | NaN => true
  | Finite _ => false
  end.

(** [x * k] for a float [x] and an int [k]; [NaN] is absorbing. *)
Definition fmul (x : pyfloat) (k : Z) : pyfloat :=
  match x with
  | Finite q => Finite (q * inject_Z k)
  | NaN => NaN
  end.

(** *** Fixed-point formatting: the [f] presentation type *)

(** The integer nearest to a non-negative rational, ties going to the
    even neighbour. *)
Definition round_half_even (q : Q) : Z :=
  let n := Qnum q in
  let d := Zpos (Qden q) in
  let lo := n / d in
  let twice := 2 * (n mod d) in
  if twice <? d then lo
  else if d <? twice then lo + 1
  else if Z.even lo then lo else lo + 1.

(** [s.zfill(width)] on a string of digits. *)
Definition zfill (width : nat) (s : string) : string :=
  (String.concat "" (repeat "0" (width - String.length s)) ++ s)%string.

(** [format(q, ".<prec>f")] for a finite value. *)
Definition format_fixed (prec : nat) (q : Q) : string :=
  let scale := 10 ^ Z.of_nat prec in
  let n := round_half_even (Qabs q * inject_Z scale) in
  let sign := if Qnum q <? 0 then "-"%string else ""%string in
  let digits :=
    match prec with
    | O => str (n / scale)
    | S _ => (str (n / scale) ++ "." ++ zfill prec (str (n mod scale)))%string
    end in
  (sign ++ digits)%string.

(** [format(x, ".<prec>f")]: a float that is [NaN] prints as [nan]. *)
Definition format_f (prec : nat) (x : pyfloat) : string :=
  match x with
  | NaN => "nan"%string
  | Finite q => format_fixed prec q
  end.

End Python.

(** ** The fragment of pandas the script uses *)

Module Pandas.
Import Python.

Definition Series (A : Type) : Type := list A.

(** [s.isin(values)] *)
Definition isin (s : Series string) (values : list string) : Series bool :=
  map (fun x => existsb (String.eqb x) values) s.

(** [s.between(left, right)], both ends inclusive. *)
Definition between (s : Series Z) (left right : Z) : Series bool :=
  map (fun x => (left <=? x) && (x <=? right)) s.

(** [s.astype(str)] on an integer column. *)
Definition astype_str (s : Series Z) : Series string := map str s.

(** [s == value] on a text column. *)
Definition eq_scalar (s : Series string) (value : string) : Series bool :=
  map (fun x => String.eqb x value) s.

(** [a & b] on two boolean series over the same index. *)
Fixpoint and_ (a b : Series bool) : Series bool :=
  match a, b with
  | x :: a', y :: b' => (x && y) :: and_ a' b'
  | _, _ => []
  end.

(** A frame is the list of its rows. *)
Definition DataFrame (Row : Type) : Type := list Row.

(** [df["name"]] *)
Definition col {Row A : Type} (field : Row -> A) (df : DataFrame Row)
  : Series A :=
  map field df.

(** [df[mask]]: a new frame holding the rows whose mask entry is true. *)
Fixpoint getitem {Row : Type} (df : DataFrame Row) (mask : Series bool)
  : DataFrame Row :=
  match df, mask with
  | r :: df', b :: mask' =>
      if b then r :: getitem df' mask' else getitem df' mask'
  | _, _ => []
  end.

(** [len(df)] *)
Definition len {Row : Type} (df : DataFrame Row) : Z :=
  Z.of_nat (List.length df).

(** *** Means *)

Definition sum (s : Series Z) : Z := fold_right Z.add 0 s.

(** [s.mean()] on an integer column: the sum over the count, and [NaN]
    when the column is empty. *)
Definition mean (s : Series Z) : pyfloat :=
  match s with
  | [] => NaN
  | _ :: _ => Finite (inject_Z (sum s) / inject_Z (Z.of_nat (List.length s)))
  end.

(** [s.mean()] on a boolean column: [True] counts as 1, [False] as 0. *)
Definition mean_bool (s : Series bool) : pyfloat := mean (map Z.b2z s).

(** *** Grouped counts *)

(** The order pandas sorts group keys by.  Strings compare byte by byte,
    which on UTF-8 text is the order of the code points. *)
Class Ord (K : Type) : Type := { cmp : K -> K -> comparison }.

#[export] Instance Ord_Z : Ord Z := {| cmp := Z.compare |}.

#[export] Instance Ord_string : Ord string := {| cmp := String.compare |}.

(** Tuples of keys compare lexicographically. *)
#[export] Instance Ord_pair {A B : Type} `{Ord A} `{Ord B} : Ord (A * B) :=
  {| cmp := fun x y =>
       match cmp (fst x) (fst y) with
       | Eq => cmp (snd x) (snd y)
       | c => c
       end |}.

(** Count one more occurrence of [k] in a table of (key, count) rows kept
    in ascending key order. *)
Fixpoint bump {K : Type} `{Ord K} (k : K) (acc : list (K * Z))
  : list (K * Z) :=
  match acc with
  | [] => [(k, 1)]
  | (k', n) :: rest =>
      match cmp k k' with
      | Lt => (k, 1) :: acc
      | Eq => (k', n + 1) :: rest
      | Gt => (k', n) :: bump k rest
      end
  end.

(** [df.groupby(keys).size().reset_index(name=...)]: one row per observed
    key, in ascending key order ([sort=True] is the default), with the
    number of rows carrying that key.  The keys are those of rows with no
    missing key cell; [Loaded.groupby_size_dropna] puts the dropping of
    the other rows in front of it. *)
Definition groupby_size {K : Type} `{Ord K} (keys : Series K)
  : list (K * Z) :=
  fold_left (fun acc k => bump k acc) keys [].

End Pandas.

(** ** The fragment of reportlab the script uses *)

Module Reportlab.

(** The entries of the sample style sheet the report refers to. *)
Inductive Style : Type :=
| Title
| Heading2
| Normal.

(** The flowables a story is made of. *)
Inductive Flowable : Type :=
| Paragraph (text : string) (style : Style)
| Spacer (width height : Z).

End Reportlab.

(** ** The object store

    Frames are heap objects and variables hold references to them.  The
    script only ever creates frames and reads them. *)

Module Store.

Definition Ref : Type := nat.

Definition Heap (T : Type) : Type := list T.

(** A computation over the heap. *)
Definition M (T A : Type) : Type := Heap T -> A * Heap T.

Definition ret {T A : Type} (a : A) : M T A := fun h => (a, h).

Definition bind {T A B : Type} (m : M T A) (k : A -> M T B) : M T B :=
  fun h => let (a, h') := m h in k a h'.

(** A fresh object: its reference is the next free position. *)
Definition alloc {T : Type} (x : T) : M T Ref :=
  fun h => (List.length h, h ++ [x]).

(** Dereference; [dflt] stands for an unbound reference. *)
Definition load {T : Type} (dflt : T) (r : Ref) : M T T :=
  fun h => (nth r h dflt, h).

Notation "x <- m ;; k" := (bind m (fun x => k))
  (at level 61, m at next level, right associativity).

End Store.

(** ** The dashboard script *)

Module Dashboard.
Import Python Pandas Reportlab Store.

(** One row of the employee table, with the columns the script reads. *)
Record Row : Type := mkRow {
  EmployeeNumber : Z;
  Department : string;
  JobRole : string;
  EducationField : string;
  MonthlyIncome : Z;
  Attrition : string;
  OverTime : string;
  Age : Z;
  JobSatisfaction : Z;
  YearsAtCompany : Z;
  WorkLifeBalance : Z;
  JobLevel : Z;
  DistanceFromHome : Z
}.

(** The values returned by the sidebar widgets. *)
Record Controls : Type := mkControls {
  search_id : string;
  dept_filter : list string;
  role_filter : list string;
  edu_filter : list string;
  salary_range : Z * Z
}.

(** The mask of the first assignment to [filtered_df]. *)
Definition filter_mask (df : DataFrame Row) (c : Controls) : Series bool :=
  and_ (and_ (and_ (isin (col Department df) (dept_filter c))
                   (isin (col JobRole df) (role_filter c)))
             (isin (col EducationField df) (edu_filter c)))
       (between (col MonthlyIncome df)
                (fst (salary_range c)) (snd (salary_range c))).

(** The mask of the identifier search. *)
Definition search_mask (df : DataFrame Row) (c : Controls) : Series bool :=
  eq_scalar (astype_str (col EmployeeNumber df)) (search_id c).

(** The value of [filtered_df] once both assignments have run. *)
Definition filtered_df (df : DataFrame Row) (c : Controls) : DataFrame Row :=
  let filtered_df := getitem df (filter_mask df c) in
  if truthy (search_id c) then getitem df (search_mask df c)
  else filtered_df.

(** *** Top dashboard metrics *)

Definition total (filtered_df : DataFrame Row) : Z := len filtered_df.

Definition attr_rate (filtered_df : DataFrame Row) : pyfloat :=
  fmul (mean_bool (eq_scalar (col Attrition filtered_df) "Yes")) 100.

Definition avg_age (filtered_df : DataFrame Row) : pyfloat :=
  mean (col Age filtered_df).

Definition avg_sat (filtered_df : DataFrame Row) : pyfloat :=
  mean (col JobSatisfaction filtered_df).

(** The double-quote character of the HTML attributes. *)
Definition dq : string := String (ascii_of_nat 34) EmptyString.

(** The markup of one metric card; the four cards differ in their colour,
    their label and their value. *)
Definition metric_card (color label value : string) : string :=
  ("<div class=" ++ dq ++ "metric-card" ++ dq
   ++ " style=" ++ dq ++ "border-top: 5px solid " ++ color ++ ";" ++ dq
   ++ "><p class=" ++ dq ++ "metric-label" ++ dq ++ ">" ++ label
   ++ "</p><p class=" ++ dq ++ "metric-value" ++ dq
   ++ " style=" ++ dq ++ "color: " ++ color ++ ";" ++ dq ++ ">" ++ value
   ++ "</p></div>")%string.

(** The values shown in the cards [m1] to [m4]. *)
Definition card_values (filtered_df : DataFrame Row) : list string :=
  [ str (total filtered_df);
    (format_f 1 (attr_rate filtered_df) ++ "%")%string;
    (format_f 2 (avg_sat filtered_df) ++ "/4")%string;
    format_f 0 (avg_age filtered_df) ].

(** The markup written into the columns [m1] to [m4]. *)
Definition metric_cards (filtered_df : DataFrame Row) : list string :=
  map (fun '(color, label, value) => metric_card color label value)
    (combine
       [ ("#636EFA", "Total Staff"); ("#EF553B", "Attrition Rate");
         ("#00CC96", "Avg Satisfaction"); ("#AB63FA", "Avg Age") ]%string
       (card_values filtered_df)).

(** *** Grouped counts behind charts 4 and 8 *)

Definition ot_data (filtered_df : DataFrame Row)
  : list ((string * string) * Z) :=
  groupby_size (map (fun r => (OverTime r, Attrition r)) filtered_df).

Definition fig8_data (filtered_df : DataFrame Row)
  : list ((Z * string) * Z) :=
  groupby_size (map (fun r => (YearsAtCompany r, Attrition r)) filtered_df).

(** *** The PDF report *)

Definition nl : string := String (ascii_of_nat 10) EmptyString.

Definition summary_text (filtered_df : DataFrame Row) : string :=
  (nl ++ "    <b>Total Employees Analyzed:</b> "
      ++ str (total filtered_df) ++ "<br/>"
   ++ nl ++ "    <b>Attrition Rate:</b> "
      ++ format_f 2 (attr_rate filtered_df) ++ "%<br/>"
   ++ nl ++ "    <b>Average Age:</b> "
      ++ format_f 1 (avg_age filtered_df) ++ "<br/>"
   ++ nl ++ "    <b>Average Job Satisfaction:</b> "
      ++ format_f 2 (avg_sat filtered_df) ++ " / 4"
   ++ nl ++ "    ")%string.

Definition insights : list string :=
  [ "Employees working overtime show significantly higher attrition.";
    "Highest churn observed in the first 2 years of employment.";
    "Lower monthly income strongly correlates with employee exit.";
    "Longer distance from home increases attrition risk.";
    "Junior-level roles require focused retention strategies." ]%string.

(** The story [generate_pdf] hands to [doc.build]; the typesetting of the
    story into the bytes of the document is reportlab's. *)
Definition generate_pdf (filtered_df : DataFrame Row) : list Flowable :=
  [ Paragraph "HR Employees Attrition Analysis Report" Title;
    Spacer 1 12;
    Paragraph "<b>Executive Summary</b>" Heading2;
    Spacer 1 8;
    Paragraph (summary_text filtered_df) Normal;
    Spacer 1 12;
    Paragraph "<b>Key Insights</b>" Heading2;
    Spacer 1 8 ]
  ++ flat_map (fun insight =>
                 [ Paragraph ("- " ++ insight) Normal; Spacer 1 4 ])
       insights
  ++ [ Spacer 1 14;
       Paragraph "<b>Conclusion</b>" Heading2;
       Spacer 1 8;
       Paragraph
         ("Reducing overtime workload and improving engagement for junior employees "
          ++ "should be the top priorities to lower attrition in the next quarter.")
         Normal ].

(** The body paragraphs at the front of a story, up to the next heading. *)
Fixpoint section_body (story : list Flowable) : list string :=
  match story with
  | Paragraph text Normal :: story' => text :: section_body story'
  | Spacer _ _ :: story' => section_body story'
  | _ => []
  end.

(** The body paragraphs that follow the heading [heading]. *)
Fixpoint section_of (heading : string) (story : list Flowable) : list string :=
  match story with
  | [] => []
  | Paragraph text Heading2 :: story' =>
      if String.eqb text heading then section_body story'
      else section_of heading story'
  | _ :: story' => section_of heading story'
  end.

(** The insight lines of a report, as they appear in the document. *)
Definition report_insights (story : list Flowable) : list string :=
  section_of "<b>Key Insights</b>" story.

(** *** One run of the script over the object store *)

(** What a run leaves behind: the reference bound to [filtered_df] and the
    values derived from the frame it denotes. *)
Record Outputs : Type := mkOutputs {
  out_filtered_df : Ref;
  out_total : Z;
  out_attr_rate : pyfloat;
  out_cards : list string;
  out_ot_data : list ((string * string) * Z);
  out_fig8_data : list ((Z * string) * Z);
  out_pdf : list Flowable
}.

Definition script (df : Ref) (c : Controls) : M (DataFrame Row) Outputs :=
  d <- load [] df ;;
  filtered_df <- alloc (getitem d (filter_mask d c)) ;;
  filtered_df <-
    (if truthy (search_id c)
     then d <- load [] df ;; alloc (getitem d (search_mask d c))
     else ret filtered_df) ;;
  view <- load [] filtered_df ;;
  ret {| out_filtered_df := filtered_df;
         out_total := total view;
         out_attr_rate := attr_rate view;
         out_cards := metric_cards view;
         out_ot_data := ot_data view;
         out_fig8_data := fig8_data view;
         out_pdf := generate_pdf view |}.

End Dashboard.

(** ** Vocabulary of the specification *)

Module Spec.
Import Python Pandas Dashboard.

(** [selects P records result]: [result] holds exactly the records that
    satisfy [P], in their original order and as often as they occur. *)
Inductive selects {A : Type} (P : A -> Prop) : list A -> list A -> Prop :=
| selects_nil : selects P [] []
| selects_keep (x : A) (l l' : list A) :
    P x -> selects P l l' -> selects P (x :: l) (x :: l')
| selects_drop (x : A) (l l' : list A) :
    ~ P x -> selects P l l' -> selects P (x :: l) l'.

(** The identifier of the record stringifies to [id]. *)
Definition has_identifier (id : string) (r : Row) : Prop :=
  str (EmployeeNumber r) = id.

(** The record passes the three set-membership predicates and the
    inclusive income range. *)
Definition satisfies (c : Controls) (r : Row) : Prop :=
  In (Department r) (dept_filter c)
  /\ In (JobRole r) (role_filter c)
  /\ In (EducationField r) (edu_filter c)
  /\ fst (salary_range c) <= MonthlyIncome r <= snd (salary_range c).

(** The entry of [filter_mask] for one row. *)
Definition passes (c : Controls) (r : Row) : bool :=
  existsb (String.eqb (Department r)) (dept_filter c)
  && existsb (String.eqb (JobRole r)) (role_filter c)
  && existsb (String.eqb (EducationField r)) (edu_filter c)
  && ((fst (salary_range c) <=? MonthlyIncome r)
      && (MonthlyIncome r <=? snd (salary_range c))).

(** The entry of [search_mask] for one row. *)
Definition found (c : Controls) (r : Row) : bool :=
  String.eqb (str (EmployeeNumber r)) (search_id c).

(** What sorting relies on: the comparison is a strict total order. *)
Class OrdLaws (K : Type) `{Ord K} : Prop := {
  cmp_refl : forall x : K, cmp x x = Eq;
  cmp_eq : forall x y : K, cmp x y = Eq -> x = y;
  cmp_antisym : forall x y : K, cmp y x = CompOpp (cmp x y);
  cmp_trans : forall x y z : K, cmp x y = Lt -> cmp y z = Lt -> cmp x z = Lt
}.

(** The count a table of (key, count) rows holds for the key [x]. *)
Fixpoint tally {K : Type} `{Ord K} (x : K) (rows : list (K * Z)) : Z :=
  match rows with
  | [] => 0
  | (k, n) :: rows' =>
      match cmp x k with
      | Eq => n + tally x rows'
      | _ => tally x rows'
      end
  end.

(** The number of entries of [keys] equal to [x]. *)
Fixpoint occurrences {K : Type} `{Ord K} (x : K) (keys : list K) : Z :=
  match keys with
  | [] => 0
  | k :: keys' =>
      match cmp x k with
      | Eq => 1 + occurrences x keys'
      | _ => occurrences x keys'
      end
  end.

(** Group keys are in strictly ascending order. *)
Definition ascending {K : Type} `{Ord K} (keys : list K) : Prop :=
  StronglySorted (fun a b => cmp a b = Lt) keys.

End Spec.

(** ** The scenarios of the specification *)

Module Scenario.
Import Python Pandas Dashboard.
Local Open Scope string_scope.

Definition record1 : Row :=
  {| EmployeeNumber := 1; Department := "Sales";
     JobRole := "Sales Executive"; EducationField := "Marketing";
     MonthlyIncome := 5000; Attrition := "Yes"; OverTime := "Yes";
     Age := 41; JobSatisfaction := 4; YearsAtCompany := 6;
     WorkLifeBalance := 1; JobLevel := 2; DistanceFromHome := 1 |}.

Definition record2 : Row :=
  {| EmployeeNumber := 2; Department := "R&D";
     JobRole := "Research Scientist"; EducationField := "Life Sciences";
     MonthlyIncome := 9000; Attrition := "No"; OverTime := "No";
     Age := 49; JobSatisfaction := 2; YearsAtCompany := 10;
     WorkLifeBalance := 3; JobLevel := 2; DistanceFromHome := 8 |}.

Definition records : DataFrame Row := [record1; record2].

(** Every category selected, the whole income range, no search. *)
Definition all_selected : Controls :=
  {| search_id := "";
     dept_filter := ["Sales"; "R&D"];
     role_filter := ["Sales Executive"; "Research Scientist"];
     edu_filter := ["Marketing"; "Life Sciences"];
     salary_range := (0, 10000) |}.

(** Only the sales department. *)
Definition sales_only : Controls :=
  {| search_id := "";
     dept_filter := ["Sales"];
     role_filter := role_filter all_selected;
     edu_filter := edu_filter all_selected;
     salary_range := (0, 10000) |}.

(** The sales department, and a search for employee 2. *)
Definition search_two : Controls :=
  {| search_id := "2";
     dept_filter := ["Sales"];
     role_filter := role_filter all_selected;
     edu_filter := edu_filter all_selected;
     salary_range := (0, 10000) |}.

(** An income range no record falls in. *)
Definition out_of_range : Controls :=
  {| search_id := "";
     dept_filter := dept_filter all_selected;
     role_filter := role_filter all_selected;
     edu_filter := edu_filter all_selected;
     salary_range := (20000, 30000) |}.

End Scenario.

(** ** The rest of the page: the recap table and the chart colours *)

Module Page.
Import Python Pandas Dashboard.
Local Open Scope string_scope.

(** [sub in s] on two strings. *)
Fixpoint contains (sub s : string) : bool :=
  String.prefix sub s
  || match s with
     | EmptyString => false
     | String _ s' => contains sub s'
     end.

(** The style of one cell of the [Risk Level] column. *)
Definition color_risk (val : string) : string :=
  let color :=
    if String.eqb val "Critical" then "#ff4b4b"
    else if contains "High" val then "#ffa15a"
    else "#00cc96" in
  "color: " ++ color ++ "; font-weight: bold".

(** The recap table: category, primary driver, risk level, action. *)
Definition summary_data : list (string * string * string * string) :=
  [ ("Demographics", "Younger Age (25-35)", "High", "Career Pathing");
    ("Financial", "Lower Monthly Income", "Medium-High",
     "Salary Benchmarking");
    ("Workload", "Frequent Overtime", "Critical", "Resource Rebalancing");
    ("Environment", "Long Commutes", "Medium", "Remote Work Options") ].

(** The styles [applymap] gives the [Risk Level] column. *)
Definition risk_styles : list string :=
  map (fun '(_, _, risk, _) => color_risk risk) summary_data.


(** The rows of a grouped count whose attrition key is [flag]: the rows
    charts 4 and 8 draw in the colour of that value. *)
Definition with_attrition {A : Type} (flag : string)
  (rows : list ((A * string) * Z)) : list ((A * string) * Z) :=
  filter (fun row => String.eqb (snd (fst row)) flag) rows.

End Page.

(** ** The key columns as the frame holds them

    [read_csv] leaves a missing cell wherever the file has no value.  The
    grouped counts and chart 5 read three columns of the view; this is
    their content with the cells as the frame holds them, a value or a
    missing one. *)

Module Loaded.
Import Python Pandas Dashboard.
Local Open Scope string_scope.

Record KeyCells : Type := mkKeyCells {
  OverTime_cell : option string;
  Attrition_cell : option string;
  YearsAtCompany_cell : option Z
}.

(** The cells of a record that has all of them. *)
Definition cells_of (r : Row) : KeyCells :=
  {| OverTime_cell := Some (OverTime r);
     Attrition_cell := Some (Attrition r);
     YearsAtCompany_cell := Some (YearsAtCompany r) |}.

(** The group key of a row under [groupby([a, b])]: missing as soon as one
    of its two cells is. *)
Definition key_of {A B : Type} (a : option A) (b : option B)
  : option (A * B) :=
  match a, b with
  | Some x, Some y => Some (x, y)
  | _, _ => None
  end.

(** The keys that are not missing, in row order. *)
Fixpoint present {K : Type} (keys : Series (option K)) : Series K :=
  match keys with
  | [] => []
  | Some k :: keys' => k :: present keys'
  | None :: keys' => present keys'
  end.

(** [df.groupby(keys).size()] as the script calls it, with the default
    [dropna=True]: rows whose key is missing are left out, the others are
    counted per key. *)
Definition groupby_size_dropna {K : Type} `{Ord K} (keys : Series (option K))
  : list (K * Z) :=
  groupby_size (present keys).

Definition ot_data (filtered_df : DataFrame KeyCells)
  : list ((string * string) * Z) :=
  groupby_size_dropna
    (map (fun r => key_of (OverTime_cell r) (Attrition_cell r)) filtered_df).

Definition fig8_data (filtered_df : DataFrame KeyCells)
  : list ((Z * string) * Z) :=
  groupby_size_dropna
    (map (fun r => key_of (YearsAtCompany_cell r) (Attrition_cell r))
       filtered_df).

(** [s == value] on a text column: a missing cell equals no string. *)
Definition eq_scalar (s : Series (option string)) (value : string)
  : Series bool :=
  map (fun cell => match cell with
                   | Some x => String.eqb x value
                   | None => false
                   end) s.

(** The frame behind chart 5: the records of the view that left. *)
Definition leavers (filtered_df : DataFrame KeyCells) : DataFrame KeyCells :=
  getitem filtered_df (eq_scalar (col Attrition_cell filtered_df) "Yes").

(** The cell is not missing. *)
Definition filled {A : Type} (cell : option A) : bool :=
  match cell with
  | Some _ => true
  | None => false
  end.

(** The text cell holds [value]. *)
Definition holds_text (value : string) (cell : option string) : bool :=
  match cell with
  | Some x => String.eqb x value
  | None => false
  end.

(** The number cell holds [value]. *)
Definition holds_number (value : Z) (cell : option Z) : bool :=
  match cell with
  | Some x => Z.eqb x value
  | None => false
  end.

(** A view with one record lacking its overtime cell, one lacking its
    tenure cell, and one complete record. *)
Definition with_gaps : DataFrame KeyCells :=
  [ {| OverTime_cell := None; Attrition_cell := Some "No";
       YearsAtCompany_cell := Some 3 |};
    {| OverTime_cell := Some "Yes"; Attrition_cell := Some "Yes";
       YearsAtCompany_cell := None |};
    cells_of Scenario.record1 ].

End Loaded.

(** ** Objects, names and in-place changes

    The interpreter state behind one run of the page: a heap of objects,
    which can be created and changed in place, and the module-level names
    bound to them, which can be rebound.  A computation either raises
    ([None]) or returns a value and the state it leaves. *)

Module Objects.
Import Python Pandas Reportlab Dashboard.
Local Open Scope string_scope.

Definition Ref : Type := nat.

(** The kinds of object the page handles: frames, the sample style sheet
    (of which the report sets the title colour), the story list and the
    byte buffer, whose content is the document built from a story. *)
Inductive Obj : Type :=
| Frame (rows : DataFrame Row)
| StyleSheet (title_color : option string)
| Story (flowables : list Flowable)
| Buffer (document : option (list Flowable)).

Record State : Type := mkState {
  names : list (string * Ref);
  heap : list Obj
}.

Definition M (A : Type) : Type := State -> option (A * State).

Definition ret {A : Type} (a : A) : M A := fun s => Some (a, s).

Definition bind {A B : Type} (m : M A) (k : A -> M B) : M B :=
  fun s =>
    match m s with
    | Some (a, s') => k a s'
    | None => None
    end.

Declare Scope obj_scope.
Delimit Scope obj_scope with obj.

Notation "x <- m ;; k" := (bind m (fun x => k))
  (at level 61, m at next level, right associativity) : obj_scope.

Notation "m ;;; k" := (bind m (fun _ => k))
  (at level 61, right associativity) : obj_scope.

Local Open Scope obj_scope.

(** The name [x] as the namespace binds it; the latest binding wins. *)
Fixpoint lookup (x : string) (ns : list (string * Ref)) : option Ref :=
  match ns with
  | [] => None
  | (y, r) :: ns' => if String.eqb x y then Some r else lookup x ns'
  end.

(** Reading a name; an unbound name raises. *)
Definition name (x : string) : M Ref :=
  fun s =>
    match lookup x (names s) with
    | Some r => Some (r, s)
    | None => None
    end.

(** The assignment [x = <object>]: it rebinds the name and touches no
    object. *)
Definition assign (x : string) (r : Ref) : M unit :=
  fun s => Some (tt, mkState ((x, r) :: names s) (heap s)).

(** A new object, at the next free position of the heap. *)
Definition new (o : Obj) : M Ref :=
  fun s => Some (List.length (heap s), mkState (names s) (heap s ++ [o])).

(** The heap with the object at [r] replaced. *)
Fixpoint update_at (r : Ref) (o : Obj) (h : list Obj) : list Obj :=
  match h, r with
  | [], _ => []
  | _ :: h', O => o :: h'
  | x :: h', S r' => x :: update_at r' o h'
  end.

(** An in-place change of the object at [r]. *)
Definition put (r : Ref) (o : Obj) : M unit :=
  fun s =>
    match nth_error (heap s) r with
    | Some _ => Some (tt, mkState (names s) (update_at r o (heap s)))
    | None => None
    end.

(** The rows of the frame at [r]. *)
Definition frame_of (r : Ref) : M (DataFrame Row) :=
  fun s =>
    match nth_error (heap s) r with
    | Some (Frame rows) => Some (rows, s)
    | _ => None
    end.

(** [story.append(x)] *)
Definition append (story : Ref) (x : Flowable) : M unit :=
  fun s =>
    match nth_error (heap s) story with
    | Some (Story flowables) => put story (Story (flowables ++ [x])) s
    | _ => None
    end.

(** The appends of the report, one flowable after the other. *)
Fixpoint append_each (story : Ref) (xs : list Flowable) : M unit :=
  match xs with
  | [] => ret tt
  | x :: xs' => append story x ;;; append_each story xs'
  end.

(** [styles["Title"].textColor = HexColor(color)] *)
Definition set_title_color (styles : Ref) (color : string) : M unit :=
  fun s =>
    match nth_error (heap s) styles with
    | Some (StyleSheet _) => put styles (StyleSheet (Some color)) s
    | _ => None
    end.

(** [doc.build(story)]: the document of the story is written into the
    buffer. *)
Definition build (buffer story : Ref) : M unit :=
  fun s =>
    match nth_error (heap s) buffer, nth_error (heap s) story with
    | Some (Buffer _), Some (Story flowables) =>
        put buffer (Buffer (Some flowables)) s
    | _, _ => None
    end.

(** The first assignment to [filtered_df]. *)
Definition apply_filters (c : Controls) : M unit :=
  r <- name "df" ;;
  df <- frame_of r ;;
  view <- new (Frame (getitem df (filter_mask df c))) ;;
  assign "filtered_df" view.

(** The second, conditional assignment to [filtered_df]. *)
Definition apply_search (c : Controls) : M unit :=
  if truthy (search_id c)
  then r <- name "df" ;;
       df <- frame_of r ;;
       view <- new (Frame (getitem df (search_mask df c))) ;;
       assign "filtered_df" view
  else ret tt.

(** The call [generate_pdf(filtered_df)] on the frame at [arg]: a buffer,
    a style sheet and a story are created, the title colour is set, the
    flowables are appended, the document is built into the buffer, and
    the buffer is returned. *)
Definition call_generate_pdf (arg : Ref) : M Ref :=
  buffer <- new (Buffer None) ;;
  styles <- new (StyleSheet None) ;;
  story <- new (Story []) ;;
  set_title_color styles "#4F46E5" ;;;
  filtered_df <- frame_of arg ;;
  append_each story (generate_pdf filtered_df) ;;;
  build buffer story ;;;
  ret buffer.

(** What one run puts on the page. *)
Record Shown : Type := mkShown {
  shown_cards : list string;
  shown_ot_data : list ((string * string) * Z);
  shown_fig8_data : list ((Z * string) * Z)
}.

Definition show (filtered_df : DataFrame Row) : Shown :=
  {| shown_cards := metric_cards filtered_df;
     shown_ot_data := ot_data filtered_df;
     shown_fig8_data := fig8_data filtered_df |}.

(** One run of the page below the sidebar: the two assignments to
    [filtered_df], the metrics and grouped counts read from it, and the
    report bound to [pdf_file]. *)
Definition page (c : Controls) : M Shown :=
  apply_filters c ;;;
  apply_search c ;;;
  r <- name "filtered_df" ;;
  filtered_df <- frame_of r ;;
  pdf_file <- call_generate_pdf r ;;
  assign "pdf_file" pdf_file ;;;
  ret (show filtered_df).

(** The scenario's table, loaded and bound to [df]. *)
Definition loaded : State :=
  {| names := [("df", 0%nat)]; heap := [Frame Scenario.records] |}.

End Objects.

(** * Properties *)

Import Python Pandas Reportlab Store Dashboard Spec Page.

(** ** Masks and selections *)

Section Masks.
Context {A : Type}.

Lemma and_map (p q : A -> bool) (l : list A) :
  and_ (map p l) (map q l) = map (fun x => p x && q x) l.
Proof.
  induction l as [|x l IH]; simpl; [reflexivity | now rewrite IH].
Qed.

Lemma getitem_map (p : A -> bool) (df : DataFrame A) :
  getitem df (map p df) = filter p df.
Proof.
  induction df as [|r df IH]; simpl; [reflexivity|].
  destruct (p r); now rewrite IH.
Qed.

Lemma filter_selects (P : A -> Prop) (p : A -> bool) (l : list A) :
  (forall x, p x = true <-> P x) -> selects P l (filter p l).
Proof.
  intros Hp. induction l as [|x l IH]; simpl.
  - constructor.
  - destruct (p x) eqn:E.
    + apply selects_keep; [now apply Hp | exact IH].
    + apply selects_drop; [|exact IH].
      intros HP. apply Hp in HP. congruence.
Qed.

(** A selection is determined by the predicate and the records. *)
Lemma selects_functional (P : A -> Prop) (l l1 l2 : list A) :
  selects P l l1 -> selects P l l2 -> l1 = l2.
Proof.
  intros H1. revert l2.
  induction H1; intros l2 H2; inversion H2; subst;
    try contradiction; try reflexivity.
  - f_equal. now apply IHselects.
  - now apply IHselects.
Qed.

Lemma selects_In (P : A -> Prop) (l l' : list A) :
  selects P l l' -> forall x, In x l' <-> In x l /\ P x.
Proof.
  induction 1; intros y; simpl.
  - tauto.
  - rewrite IHselects. split.
    + intros [-> | [? ?]]; auto.
    + intros [[-> | ?] ?]; auto.
  - rewrite IHselects. split.
    + intros [? ?]; auto.
    + intros [[-> | ?] ?]; [contradiction | auto].
Qed.

Lemma filter_idem (p : A -> bool) (l : list A) :
  filter p (filter p l) = filter p l.
Proof.
  induction l as [|x l IH]; simpl; [reflexivity|].
  destruct (p x) eqn:E; simpl; [rewrite E, IH|]; auto.
Qed.

End Masks.

(** ** The filter engine, row by row *)

Lemma filter_mask_rows (df : DataFrame Row) (c : Controls) :
  filter_mask df c = map (passes c) df.
Proof.
  unfold filter_mask, isin, between, col.
  rewrite !map_map, !and_map. reflexivity.
Qed.

Lemma search_mask_rows (df : DataFrame Row) (c : Controls) :
  search_mask df c = map (found c) df.
Proof.
  unfold search_mask, eq_scalar, astype_str, col.
  now rewrite !map_map.
Qed.

Lemma filtered_df_rows (df : DataFrame Row) (c : Controls) :
  filtered_df df c =
  if truthy (search_id c) then filter (found c) df else filter (passes c) df.
Proof.
  unfold filtered_df.
  now rewrite filter_mask_rows, search_mask_rows, !getitem_map.
Qed.

Lemma truthy_iff (s : string) : truthy s = true <-> s <> ""%string.
Proof.
  destruct s; simpl; split; congruence.
Qed.

Lemma existsb_eqb_In (x : string) (l : list string) :
  existsb (String.eqb x) l = true <-> In x l.
Proof.
  rewrite existsb_exists. split.
  - intros [y [Hy E]]. apply String.eqb_eq in E. now subst.
  - intros H. exists x. split; [exact H | apply String.eqb_refl].
Qed.

Lemma passes_iff (c : Controls) (r : Row) :
  passes c r = true <-> satisfies c r.
Proof.
  unfold passes, satisfies.
  rewrite !andb_true_iff, !existsb_eqb_In, !Z.leb_le. tauto.
Qed.

Lemma found_iff (c : Controls) (r : Row) :
  found c r = true <-> has_identifier (search_id c) r.
Proof.
  unfold found, has_identifier. apply String.eqb_eq.
Qed.

(** Decimal printing never confuses two integers. *)
Lemma str_inj (a b : Z) : str a = str b -> a = b.
Proof.
  unfold str. intros E.
  assert (Hnz : forall z, Z.to_int z <> Decimal.Pos Decimal.Nil
                          /\ Z.to_int z <> Decimal.Neg Decimal.Nil).
  { intros [|p|p]; simpl; split; try discriminate;
      intros [= H]; now apply DecimalPos.Unsigned.to_uint_nonnil in H. }
  apply DecimalZ.to_int_inj.
  assert (Some (Z.to_int a) = Some (Z.to_int b)) as [= ->]; [|reflexivity].
  rewrite <- (NilZero.isi (Z.to_int a)), <- (NilZero.isi (Z.to_int b));
    try apply Hnz.
  now rewrite E.
Qed.

Lemma unique_identifier_hit (c : Controls) (df : DataFrame Row) :
  NoDup (map EmployeeNumber df) ->
  (List.length (filter (found c) df) <= 1)%nat.
Proof.
  induction df as [|r df IH]; simpl; [lia|].
  intros Hnd. apply NoDup_cons_iff in Hnd as [Hfresh Hnd].
  destruct (found c r) eqn:Er; [|now apply IH].
  assert (filter (found c) df = []) as ->; [|simpl; lia].
  destruct (filter (found c) df) as [|r' t] eqn:Ef; [reflexivity|].
  exfalso. apply Hfresh.
  assert (Hin : In r' (filter (found c) df)) by (rewrite Ef; now left).
  apply filter_In in Hin as [Hin Er'].
  apply found_iff in Er, Er'. unfold has_identifier in *.
  rewrite (str_inj (EmployeeNumber r) (EmployeeNumber r')) by congruence.
  now apply in_map.
Qed.

(** ** The filter engine *)

(** C2.  When the search box holds a non-empty string, the filtered view
    holds exactly the records whose employee number prints as that string,
    whatever the department, role, education and income controls say; and
    if no two records share an employee number, the view has at most one
    record. *)
Theorem identifier_search_overrides (df : DataFrame Row) (c : Controls)
  (Hid : search_id c <> ""%string) :
  selects (has_identifier (search_id c)) df (filtered_df df c)
  /\ (forall c' : Controls,
        search_id c' = search_id c -> filtered_df df c' = filtered_df df c)
  /\ (NoDup (map EmployeeNumber df) ->
      (List.length (filtered_df df c) <= 1)%nat).
Proof.
  apply truthy_iff in Hid.
  assert (E : filtered_df df c = filter (found c) df)
    by (now rewrite filtered_df_rows, Hid).
  repeat split.
  - rewrite E. apply filter_selects. intros r. apply found_iff.
  - intros c' Hc'. rewrite E, filtered_df_rows, Hc', Hid.
    unfold found. now rewrite Hc'.
  - intros Hnd. rewrite E. now apply unique_identifier_hit.
Qed.

Lemma identifier_search_overrides_witness :
  filtered_df Scenario.records Scenario.search_two = [Scenario.record2]
  /\ (List.length (filtered_df Scenario.records Scenario.search_two) <= 1)%nat.
Proof.
  assert (Hid : search_id Scenario.search_two <> ""%string)
    by (simpl; discriminate).
  destruct (identifier_search_overrides Scenario.records Scenario.search_two Hid)
    as [_ [_ Hone]].
  split; [reflexivity|].
  apply Hone. simpl.
  repeat constructor; simpl; intuition discriminate.
Defined.

(** C3.  When the search box is empty, the filtered view holds exactly the
    records whose department, role and education field are among the
    selected ones and whose monthly income lies in the selected range,
    ends included; an empty selection in any of the three lists leaves no
    record. *)
Theorem criteria_select_conjunction (df : DataFrame Row) (c : Controls)
  (Hid : search_id c = ""%string) :
  selects (satisfies c) df (filtered_df df c)
  /\ (dept_filter c = [] \/ role_filter c = [] \/ edu_filter c = [] ->
      filtered_df df c = []).
Proof.
  assert (E : filtered_df df c = filter (passes c) df)
    by (now rewrite filtered_df_rows, Hid).
  rewrite E. split.
  - apply filter_selects. intros r. apply passes_iff.
  - intros Hempty.
    induction df as [|r df IH]; simpl; [reflexivity|].
    assert (passes c r = false) as ->.
    { unfold passes.
      destruct Hempty as [-> | [-> | ->]]; simpl;
        rewrite ?andb_false_r; reflexivity. }
    apply IH. now rewrite filtered_df_rows, Hid.
Qed.

Lemma criteria_select_conjunction_witness :
  selects (satisfies Scenario.sales_only) Scenario.records [Scenario.record1].
Proof.
  change [Scenario.record1]
    with (filtered_df Scenario.records Scenario.sales_only).
  apply (criteria_select_conjunction Scenario.records Scenario.sales_only).
  reflexivity.
Defined.

(** C4.  Filtering is idempotent: filtering the filtered view again with
    the same controls returns it unchanged. *)
Theorem filtered_df_idempotent (df : DataFrame Row) (c : Controls) :
  filtered_df (filtered_df df c) c = filtered_df df c.
Proof.
  rewrite !filtered_df_rows.
  destruct (truthy (search_id c)); apply filter_idem.
Qed.

(** ** Key orders *)

#[export] Instance OrdLaws_Z : OrdLaws Z.
Proof.
  split; simpl.
  - apply Z.compare_refl.
  - apply Z.compare_eq.
  - intros x y. apply Z.compare_antisym.
  - intros x y z. rewrite !Z.compare_lt_iff. lia.
Qed.

Lemma ascii_compare_refl (a : ascii) : Ascii.compare a a = Eq.
Proof. apply N.compare_refl. Qed.

Lemma ascii_compare_trans (a b c : ascii) :
  Ascii.compare a b = Lt -> Ascii.compare b c = Lt -> Ascii.compare a c = Lt.
Proof.
  unfold Ascii.compare. rewrite !N.compare_lt_iff. lia.
Qed.

Lemma string_compare_refl (s : string) : String.compare s s = Eq.
Proof.
  induction s as [|a s IH]; simpl; [reflexivity|].
  now rewrite ascii_compare_refl.
Qed.

Lemma string_compare_trans (x y z : string) :
  String.compare x y = Lt -> String.compare y z = Lt ->
  String.compare x z = Lt.
Proof.
  revert y z.
  induction x as [|a x IH]; intros [|b y] [|c z]; simpl;
    try discriminate; try reflexivity.
  destruct (Ascii.compare a b) eqn:Eab; try discriminate;
    destruct (Ascii.compare b c) eqn:Ebc; try discriminate; intros Hxy Hyz.
  - apply Ascii.compare_eq_iff in Eab, Ebc. subst.
    rewrite ascii_compare_refl. now apply IH with y.
  - apply Ascii.compare_eq_iff in Eab. subst. now rewrite Ebc.
  - apply Ascii.compare_eq_iff in Ebc. subst. now rewrite Eab.
  - now rewrite (ascii_compare_trans a b c).
Qed.

#[export] Instance OrdLaws_string : OrdLaws string.
Proof.
  split; simpl.
  - apply string_compare_refl.
  - apply String.compare_eq_iff.
  - intros x y. apply String.compare_antisym.
  - apply string_compare_trans.
Qed.

#[export] Instance OrdLaws_pair {A B : Type} `{OrdLaws A} `{OrdLaws B} :
  OrdLaws (A * B).
Proof.
  split; simpl.
  - intros [a b]; simpl. now rewrite !cmp_refl.
  - intros [a b] [a' b']; simpl.
    destruct (cmp a a') eqn:Ea; try discriminate.
    intros Eb. apply cmp_eq in Ea, Eb. now subst.
  - intros [a b] [a' b']; simpl.
    rewrite (cmp_antisym a a').
    destruct (cmp a a'); simpl; auto using cmp_antisym.
  - intros [a b] [a' b'] [a'' b'']; simpl.
    destruct (cmp a a') eqn:E1; try discriminate;
      destruct (cmp a' a'') eqn:E2; try discriminate; intros H3 H4.
    + apply cmp_eq in E1, E2. subst. rewrite cmp_refl.
      now apply cmp_trans with b'.
    + apply cmp_eq in E1. subst. now rewrite E2.
    + apply cmp_eq in E2. subst. now rewrite E1.
    + now rewrite (cmp_trans a a' a'').
Qed.

(** ** Grouped counts *)

Section GroupBy.
Context {K : Type} `{OrdLaws K}.

Lemma cmp_gt_lt (x y : K) : cmp x y = Gt -> cmp y x = Lt.
Proof. intros E. now rewrite cmp_antisym, E. Qed.

Lemma cmp_lt_gt (x y : K) : cmp x y = Lt -> cmp y x = Gt.
Proof. intros E. now rewrite cmp_antisym, E. Qed.

(** Counting one more row adds one to the sum of the counts. *)
Lemma bump_sum (k : K) (acc : list (K * Z)) :
  sum (map snd (bump k acc)) = sum (map snd acc) + 1.
Proof.
  unfold sum.
  induction acc as [|[k' n] acc IH]; cbn [bump]; [reflexivity|].
  destruct (cmp k k'); cbn [map snd fold_right]; rewrite ?IH; lia.
Qed.

(** The keys after a bump are the old keys, plus possibly [k]. *)
Lemma bump_keys (k : K) (acc : list (K * Z)) (x : K) :
  In x (map fst (bump k acc)) -> x = k \/ In x (map fst acc).
Proof.
  induction acc as [|[k' n] acc IH]; simpl.
  - intuition.
  - destruct (cmp k k'); simpl; intuition.
Qed.

Lemma bump_ascending (k : K) (acc : list (K * Z)) :
  ascending (map fst acc) -> ascending (map fst (bump k acc)).
Proof.
  unfold ascending.
  induction acc as [|[k' n] acc IH]; simpl; intros Hs.
  - repeat constructor.
  - apply StronglySorted_inv in Hs as [Hs Hall].
    destruct (cmp k k') eqn:E; simpl.
    + constructor; assumption.
    + constructor; [constructor; assumption|].
      constructor; [exact E|].
      eapply Forall_impl; [|exact Hall].
      intros y Hy. now apply cmp_trans with k'.
    + constructor; [now apply IH|].
      apply Forall_forall. intros y Hy.
      apply bump_keys in Hy as [-> | Hy].
      * now apply cmp_gt_lt.
      * rewrite Forall_forall in Hall. now apply Hall.
Qed.

(** The order in which two rows are counted does not matter. *)
Lemma bump_comm (a b : K) (acc : list (K * Z)) :
  bump a (bump b acc) = bump b (bump a acc).
Proof.
  induction acc as [|[k n] acc IH]; simpl.
  - destruct (cmp a b) eqn:E.
    + apply cmp_eq in E. subst. now rewrite cmp_refl.
    + now rewrite (cmp_lt_gt _ _ E).
    + now rewrite (cmp_gt_lt _ _ E).
  - destruct (cmp b k) eqn:Eb; destruct (cmp a k) eqn:Ea; simpl;
      rewrite ?Ea, ?Eb; try reflexivity.
    + apply cmp_eq in Eb. subst. now rewrite (cmp_lt_gt _ _ Ea).
    + apply cmp_eq in Ea. subst. now rewrite (cmp_lt_gt _ _ Eb).
    + destruct (cmp a b) eqn:E.
      * apply cmp_eq in E. subst. now rewrite cmp_refl.
      * now rewrite (cmp_lt_gt _ _ E).
      * now rewrite (cmp_gt_lt _ _ E).
    + assert (E : cmp b a = Lt)
        by (apply cmp_trans with k; [exact Eb | now apply cmp_gt_lt]).
      now rewrite (cmp_lt_gt _ _ E).
    + assert (E : cmp a b = Lt)
        by (apply cmp_trans with k; [exact Ea | now apply cmp_gt_lt]).
      now rewrite (cmp_lt_gt _ _ E).
    + now rewrite IH.
Qed.

(** A bump raises the count of its own key by one and no other. *)
Lemma bump_tally (x k : K) (acc : list (K * Z)) :
  tally x (bump k acc) = tally x acc + occurrences x [k].
Proof.
  induction acc as [|[k' n] acc IH]; cbn [bump tally occurrences].
  - destruct (cmp x k); lia.
  - destruct (cmp k k') eqn:E; cbn [tally].
    + apply cmp_eq in E. subst k'. destruct (cmp x k); lia.
    + destruct (cmp x k), (cmp x k'); lia.
    + cbn [occurrences] in IH. rewrite IH.
      destruct (cmp x k), (cmp x k'); lia.
Qed.

Lemma fold_bump_tally (x : K) (keys : list K) (acc : list (K * Z)) :
  tally x (fold_left (fun acc k => bump k acc) keys acc)
  = tally x acc + occurrences x keys.
Proof.
  revert acc. induction keys as [|k keys IH]; intros acc.
  - simpl. lia.
  - cbn [fold_left]. rewrite IH, bump_tally. cbn [occurrences].
    destruct (cmp x k); lia.
Qed.

Lemma fold_bump_sum (keys : list K) (acc : list (K * Z)) :
  sum (map snd (fold_left (fun acc k => bump k acc) keys acc))
  = sum (map snd acc) + Z.of_nat (List.length keys).
Proof.
  revert acc. induction keys as [|k keys IH]; intros acc.
  - simpl. lia.
  - cbn [fold_left List.length]. rewrite IH, bump_sum. lia.
Qed.

Lemma fold_bump_ascending (keys : list K) (acc : list (K * Z)) :
  ascending (map fst acc) ->
  ascending (map fst (fold_left (fun acc k => bump k acc) keys acc)).
Proof.
  revert acc. induction keys as [|k keys IH]; intros acc Hs; simpl.
  - exact Hs.
  - apply IH. now apply bump_ascending.
Qed.

Lemma fold_bump_permutation (keys keys' : list K) :
  Permutation keys keys' ->
  forall acc : list (K * Z),
    fold_left (fun acc k => bump k acc) keys acc
    = fold_left (fun acc k => bump k acc) keys' acc.
Proof.
  induction 1; intros acc; simpl.
  - reflexivity.
  - apply IHPermutation.
  - now rewrite bump_comm.
  - now rewrite IHPermutation1.
Qed.

Lemma groupby_size_total (keys : Series K) :
  sum (map snd (groupby_size keys)) = Z.of_nat (List.length keys).
Proof.
  unfold groupby_size. now rewrite fold_bump_sum.
Qed.

(** The count of a group is the number of rows carrying its key. *)
Lemma groupby_size_tally (x : K) (keys : Series K) :
  tally x (groupby_size keys) = occurrences x keys.
Proof.
  unfold groupby_size. now rewrite fold_bump_tally.
Qed.

Lemma groupby_size_ascending (keys : Series K) :
  ascending (map fst (groupby_size keys)).
Proof.
  apply fold_bump_ascending. constructor.
Qed.

Lemma groupby_size_permutation (keys keys' : Series K) :
  Permutation keys keys' -> groupby_size keys = groupby_size keys'.
Proof.
  intros Hp. unfold groupby_size. now apply fold_bump_permutation.
Qed.

End GroupBy.

(** ** The scenarios, evaluated *)

Example scenario_department_filter :
  filtered_df Scenario.records Scenario.sales_only = [Scenario.record1]
  /\ total [Scenario.record1] = 1
  /\ format_f 1 (attr_rate [Scenario.record1]) = "100.0"%string.
Proof. repeat split. Qed.

Example scenario_identifier_search :
  filtered_df Scenario.records Scenario.search_two = [Scenario.record2].
Proof. reflexivity. Qed.

Example scenario_empty_range :
  filtered_df Scenario.records Scenario.out_of_range = []
  /\ total (filtered_df Scenario.records Scenario.out_of_range) = 0.
Proof. split; reflexivity. Qed.

Example scenario_grouped_counts :
  ot_data Scenario.records
  = [ (("No", "No"), 1); (("Yes", "Yes"), 1) ]%string
  /\ fig8_data (Scenario.records ++ [Scenario.record1])
     = [ ((6, "Yes"%string), 2); ((10, "No"%string), 1) ].
Proof. split; reflexivity. Qed.

(** ** Summary metrics *)




(** C1, as the code has it.  When the filtered view is empty, the summary
    is still computed: the total is 0, the attrition rate and the two means
    are [NaN], and the metric cards and the report summary print them as
    [nan]. *)
Theorem empty_view_metrics (df : DataFrame Row) (c : Controls)
  (Hempty : filtered_df df c = []) :
  total (filtered_df df c) = 0
  /\ attr_rate (filtered_df df c) = NaN
  /\ avg_sat (filtered_df df c) = NaN
  /\ avg_age (filtered_df df c) = NaN
  /\ card_values (filtered_df df c) = ["0"; "nan%"; "nan/4"; "nan"]%string
  /\ summary_text (filtered_df df c) =
     (nl ++ "    <b>Total Employees Analyzed:</b> 0<br/>"
      ++ nl ++ "    <b>Attrition Rate:</b> nan%<br/>"
      ++ nl ++ "    <b>Average Age:</b> nan<br/>"
      ++ nl ++ "    <b>Average Job Satisfaction:</b> nan / 4"
      ++ nl ++ "    ")%string.
Proof.
  rewrite Hempty. repeat split.
Qed.

Lemma empty_view_metrics_witness :
  filtered_df Scenario.records Scenario.out_of_range = []
  /\ attr_rate (filtered_df Scenario.records Scenario.out_of_range) = NaN.
Proof.
  split; [reflexivity|].
  apply (empty_view_metrics Scenario.records Scenario.out_of_range).
  reflexivity.
Defined.

(** C1, as stated, fails: on the empty view the rate and the means are not
    zero but [NaN], and [nan] reaches the metric cards. *)
Lemma empty_view_shows_nan :
  is_nan (attr_rate []) = true
  /\ is_nan (avg_sat []) = true
  /\ is_nan (avg_age []) = true
  /\ card_values [] = ["0"; "nan%"; "nan/4"; "nan"]%string.
Proof.
  repeat split.
Qed.

(** C5.  The total the summary reports for a filtered view is the number
    of records in that view, in the metric card, in the report and in a
    run of the script. *)
Theorem total_is_view_length (df : DataFrame Row) (c : Controls) :
  total (filtered_df df c) = Z.of_nat (List.length (filtered_df df c))
  /\ nth 0 (card_values (filtered_df df c)) ""%string
     = str (Z.of_nat (List.length (filtered_df df c)))
  /\ (let (out, heap) := script 0%nat c [df] in
      out_total out
      = Z.of_nat (List.length (nth (out_filtered_df out) heap []))).
Proof.
  repeat split.
  unfold script, bind, load, alloc, ret. simpl.
  destruct (truthy (search_id c)); reflexivity.
Qed.

(** ** The report *)

(** C7.  The insight lines of the report are the same fixed list for any
    two filtered views: the five authored sentences, each after a dash. *)
Theorem report_insights_static (view1 view2 : DataFrame Row) :
  report_insights (generate_pdf view1) = report_insights (generate_pdf view2)
  /\ report_insights (generate_pdf view1)
     = map (String.append "- ") insights.
Proof.
  split; reflexivity.
Qed.

(** ** Grouped counts of the charts *)

(** C8.  The rows of the two grouped counts come out in ascending order of
    their group key, and the output is the same for any two views holding
    the same records, in particular for equal views. *)
Theorem grouped_counts_deterministic (view1 view2 : DataFrame Row)
  (Hsame : Permutation view1 view2) :
  ot_data view1 = ot_data view2
  /\ fig8_data view1 = fig8_data view2
  /\ ascending (map fst (ot_data view1))
  /\ ascending (map fst (fig8_data view1)).
Proof.
  unfold ot_data, fig8_data. repeat split.
  - apply groupby_size_permutation. now apply Permutation_map.
  - apply groupby_size_permutation. now apply Permutation_map.
  - apply groupby_size_ascending.
  - apply groupby_size_ascending.
Qed.

Lemma grouped_counts_deterministic_witness :
  ot_data [Scenario.record1; Scenario.record2]
  = ot_data [Scenario.record2; Scenario.record1].
Proof.
  apply (grouped_counts_deterministic
           [Scenario.record1; Scenario.record2]
           [Scenario.record2; Scenario.record1]).
  apply perm_swap.
Defined.

(** * Further properties of the script *)

(** ** Selections in general *)

Section Selections.
Context {A : Type}.

Lemma filter_comm (p q : A -> bool) (l : list A) :
  filter p (filter q l) = filter q (filter p l).
Proof.
  induction l as [|x l IH]; simpl; [reflexivity|].
  destruct (p x) eqn:Ep, (q x) eqn:Eq; simpl;
    rewrite ?Ep, ?Eq, IH; reflexivity.
Qed.

Lemma filter_absorb (p q : A -> bool) (l : list A) :
  (forall x, In x l -> p x = true -> q x = true) ->
  filter p (filter q l) = filter p l.
Proof.
  induction l as [|x l IH]; simpl; intros Hpq; [reflexivity|].
  assert (IH' : filter p (filter q l) = filter p l) by (apply IH; auto).
  destruct (q x) eqn:Eq; simpl.
  - now rewrite IH'.
  - destruct (p x) eqn:Ep; [|exact IH'].
    rewrite (Hpq x) in Eq; auto; discriminate.
Qed.

Lemma filter_all (p : A -> bool) (l : list A) :
  (forall x, In x l -> p x = true) -> filter p l = l.
Proof.
  induction l as [|x l IH]; simpl; intros Hp; [reflexivity|].
  rewrite (Hp x) by auto. f_equal. apply IH. auto.
Qed.

Lemma filter_none (p : A -> bool) (l : list A) :
  (forall x, In x l -> p x = false) -> filter p l = [].
Proof.
  induction l as [|x l IH]; simpl; intros Hp; [reflexivity|].
  rewrite (Hp x) by auto. apply IH. auto.
Qed.

Lemma filter_length_le (p : A -> bool) (l : list A) :
  (List.length (filter p l) <= List.length l)%nat.
Proof.
  induction l as [|x l IH]; simpl; [lia|].
  destruct (p x); simpl; lia.
Qed.

(** A selection as long as its source is the source. *)
Lemma filter_full (p : A -> bool) (l : list A) :
  List.length (filter p l) = List.length l -> filter p l = l.
Proof.
  induction l as [|x l IH]; simpl; [reflexivity|].
  pose proof (filter_length_le p l) as Hle.
  destruct (p x); simpl; intros Hlen.
  - f_equal. apply IH. lia.
  - lia.
Qed.

(** Keys that were distinct stay distinct in a selection. *)
Lemma distinct_keys_selected {B : Type} (key : A -> B) (keep : A -> bool) :
  forall rows : list A,
    NoDup (map key rows) -> NoDup (map key (filter keep rows)).
Proof.
  intros rows. induction rows as [|x rows IH]; cbn [map filter].
  - intros _. constructor.
  - rewrite NoDup_cons_iff. intros [Hfresh Hrest].
    destruct (keep x); cbn [map]; [|now apply IH].
    apply NoDup_cons; [|now apply IH].
    rewrite in_map_iff. intros [y [Ey Hy]].
    apply filter_In in Hy as [Hy _].
    apply Hfresh. rewrite <- Ey. now apply in_map.
Qed.

End Selections.

(** The row-wise test behind [filtered_df], whichever branch is taken. *)
Lemma filtered_df_test (c : Controls) :
  exists keep : Row -> bool,
    forall df : DataFrame Row, filtered_df df c = filter keep df.
Proof.
  destruct (truthy (search_id c)) eqn:Es.
  - exists (found c). intros df. now rewrite filtered_df_rows, Es.
  - exists (passes c). intros df. now rewrite filtered_df_rows, Es.
Qed.

(** ** The filtered view against the raw table *)

(** The filtered view never holds more than the raw table: its records
    are records of the table, it is no longer than the table, and when it
    is as long as the table it is the table. *)
Theorem view_within_table (df : DataFrame Row) (c : Controls) :
  (forall r : Row, In r (filtered_df df c) -> In r df)
  /\ len (filtered_df df c) <= len df
  /\ (len (filtered_df df c) = len df -> filtered_df df c = df).
Proof.
  destruct (filtered_df_test c) as [keep Hkeep]. rewrite Hkeep.
  unfold len. repeat split.
  - intros r Hr. now apply filter_In in Hr.
  - apply Nat2Z.inj_le, filter_length_le.
  - intros Hlen. apply filter_full. now apply Nat2Z.inj.
Qed.

(** Filtering keeps employee numbers unique. *)
Theorem view_keeps_identifiers_unique (df : DataFrame Row) (c : Controls)
  (Huniq : NoDup (map EmployeeNumber df)) :
  NoDup (map EmployeeNumber (filtered_df df c)).
Proof.
  destruct (filtered_df_test c) as [keep Hkeep]. rewrite Hkeep.
  now apply distinct_keys_selected.
Qed.

Lemma view_keeps_identifiers_unique_witness :
  NoDup (map EmployeeNumber
           (filtered_df Scenario.records Scenario.sales_only)).
Proof.
  apply (view_keeps_identifiers_unique Scenario.records Scenario.sales_only).
  simpl. repeat constructor; simpl; intuition discriminate.
Defined.

(** Two settings of the controls can be applied in either order. *)
Theorem views_commute (df : DataFrame Row) (c1 c2 : Controls) :
  filtered_df (filtered_df df c1) c2 = filtered_df (filtered_df df c2) c1.
Proof.
  destruct (filtered_df_test c1) as [keep1 H1].
  destruct (filtered_df_test c2) as [keep2 H2].
  rewrite !H1, !H2. apply filter_comm.
Qed.

Lemma passes_narrower (narrow wide : Controls) (r : Row) :
  incl (dept_filter narrow) (dept_filter wide) ->
  incl (role_filter narrow) (role_filter wide) ->
  incl (edu_filter narrow) (edu_filter wide) ->
  fst (salary_range wide) <= fst (salary_range narrow) ->
  snd (salary_range narrow) <= snd (salary_range wide) ->
  passes narrow r = true -> passes wide r = true.
Proof.
  intros Hd Hr He Hlo Hhi. rewrite !passes_iff. unfold satisfies.
  intros [H1 [H2 [H3 H4]]]. repeat split; auto; lia.
Qed.

(** Without a search, narrowing the controls narrows the view: the view of
    the narrower setting is what that setting selects from the view of the
    wider one, so each of its records is in the wider view. *)
Theorem narrower_controls_narrower_view (df : DataFrame Row)
  (narrow wide : Controls)
  (Hn : search_id narrow = ""%string) (Hw : search_id wide = ""%string)
  (Hdept : incl (dept_filter narrow) (dept_filter wide))
  (Hrole : incl (role_filter narrow) (role_filter wide))
  (Hedu : incl (edu_filter narrow) (edu_filter wide))
  (Hlo : fst (salary_range wide) <= fst (salary_range narrow))
  (Hhi : snd (salary_range narrow) <= snd (salary_range wide)) :
  filtered_df (filtered_df df wide) narrow = filtered_df df narrow
  /\ (forall r : Row,
        In r (filtered_df df narrow) -> In r (filtered_df df wide)).
Proof.
  rewrite !filtered_df_rows, Hn, Hw. cbn [truthy].
  assert (E : filter (passes narrow) (filter (passes wide) df)
              = filter (passes narrow) df).
  { apply filter_absorb. intros r _. now apply passes_narrower. }
  split; [exact E|].
  intros r Hr. rewrite <- E in Hr. now apply filter_In in Hr.
Qed.

Lemma narrower_controls_narrower_view_witness :
  filtered_df (filtered_df Scenario.records Scenario.all_selected)
    Scenario.sales_only
  = filtered_df Scenario.records Scenario.sales_only.
Proof.
  apply (narrower_controls_narrower_view
           Scenario.records Scenario.sales_only Scenario.all_selected);
    try reflexivity; try apply incl_refl; simpl; try lia.
  intros x [<- | []]. now left.
Defined.

(** Without a search, an income range whose lower end lies above its upper
    end selects nothing. *)
Theorem inverted_range_selects_nothing (df : DataFrame Row) (c : Controls)
  (Hid : search_id c = ""%string)
  (Hinv : snd (salary_range c) < fst (salary_range c)) :
  filtered_df df c = [].
Proof.
  rewrite filtered_df_rows, Hid. cbn [truthy].
  apply filter_none. intros r _.
  destruct (passes c r) eqn:E; [|reflexivity].
  apply passes_iff in E. unfold satisfies in E. lia.
Qed.

Lemma inverted_range_selects_nothing_witness :
  filtered_df Scenario.records
    {| search_id := "";
       dept_filter := dept_filter Scenario.all_selected;
       role_filter := role_filter Scenario.all_selected;
       edu_filter := edu_filter Scenario.all_selected;
       salary_range := (9000, 5000) |} = [].
Proof.
  apply inverted_range_selects_nothing; simpl; [reflexivity | lia].
Defined.

(** ** The identifier search *)


Lemma uint_string_nonempty (d : Decimal.uint) :
  d <> Decimal.Nil -> NilEmpty.string_of_uint d <> ""%string.
Proof.
  destruct d; simpl; congruence.
Qed.

Lemma nilzero_string (d : Decimal.uint) :
  d <> Decimal.Nil ->
  NilZero.string_of_uint d = NilEmpty.string_of_uint d.
Proof.
  destruct d; simpl; congruence.
Qed.

Lemma str_pos (p : positive) :
  str (Z.pos p) = NilEmpty.string_of_uint (Pos.to_uint p).
Proof.
  unfold str. cbn [Z.to_int NilZero.string_of_int].
  apply nilzero_string, DecimalPos.Unsigned.to_uint_nonnil.
Qed.

Lemma str_neg (p : positive) :
  str (Z.neg p) = String "-" (NilEmpty.string_of_uint (Pos.to_uint p)).
Proof.
  unfold str. cbn [Z.to_int NilZero.string_of_int]. f_equal.
  apply nilzero_string, DecimalPos.Unsigned.to_uint_nonnil.
Qed.


Lemma str_nonempty (n : Z) : str n <> ""%string.
Proof.
  destruct n as [|p|p].
  - discriminate.
  - rewrite str_pos.
    apply uint_string_nonempty, DecimalPos.Unsigned.to_uint_nonnil.
  - rewrite str_neg. discriminate.
Qed.

(** Typing an employee's number into the search box finds that employee,
    whatever the other controls say; when employee numbers are unique the
    view is that one record. *)
Theorem search_finds_employee (df : DataFrame Row) (c : Controls) (r : Row)
  (Hin : In r df) (Hid : search_id c = str (EmployeeNumber r)) :
  In r (filtered_df df c)
  /\ (NoDup (map EmployeeNumber df) -> filtered_df df c = [r]).
Proof.
  assert (Ht : truthy (search_id c) = true)
    by (apply truthy_iff; rewrite Hid; apply str_nonempty).
  rewrite filtered_df_rows, Ht.
  assert (Hr : In r (filter (found c) df)).
  { apply filter_In. split; [exact Hin|].
    apply found_iff. unfold has_identifier. now rewrite Hid. }
  split; [exact Hr|].
  intros Hnd. pose proof (unique_identifier_hit c df Hnd) as Hlen.
  destruct (filter (found c) df) as [|x [|y t]]; simpl in *.
  - contradiction.
  - destruct Hr as [-> | []]. reflexivity.
  - lia.
Qed.

Lemma search_finds_employee_witness :
  filtered_df Scenario.records Scenario.search_two = [Scenario.record2].
Proof.
  apply (search_finds_employee Scenario.records Scenario.search_two
           Scenario.record2).
  - simpl. auto.
  - reflexivity.
  - simpl. repeat constructor; simpl; intuition discriminate.
Defined.



(** ** The rows of a grouped count *)

Section GroupRows.
Context {K : Type} `{OrdLaws K}.

Lemma bump_keeps_keys (k x : K) (acc : list (K * Z)) :
  In x (map fst acc) -> In x (map fst (bump k acc)).
Proof.
  induction acc as [|[k' n] acc IH]; simpl; [tauto|].
  destruct (cmp k k'); simpl; tauto.
Qed.

Lemma bump_adds_key (k : K) (acc : list (K * Z)) :
  In k (map fst (bump k acc)).
Proof.
  induction acc as [|[k' n] acc IH]; simpl; [now left|].
  destruct (cmp k k') eqn:E; simpl; auto.
  apply cmp_eq in E. now left.
Qed.

Lemma groupby_size_keys (keys : Series K) (x : K) :
  In x (map fst (groupby_size keys)) <-> In x keys.
Proof.
  unfold groupby_size.
  assert (Hgen : forall acc,
             In x (map fst (fold_left (fun acc k => bump k acc) keys acc))
             <-> In x (map fst acc) \/ In x keys).
  { induction keys as [|k keys IH]; intros acc; cbn [fold_left In].
    - tauto.
    - rewrite IH. split.
      + intros [Hb | Hk]; [|tauto].
        apply bump_keys in Hb as [-> | Hb]; tauto.
      + intros [Ha | [<- | Hk]]; [| |tauto].
        * left. now apply bump_keeps_keys.
        * left. apply bump_adds_key. }
  rewrite Hgen. simpl. tauto.
Qed.

Lemma tally_absent (x : K) (rows : list (K * Z)) :
  Forall (fun k => cmp x k = Lt) (map fst rows) -> tally x rows = 0.
Proof.
  induction rows as [|[k n] rows IH]; simpl; intros Hall; [reflexivity|].
  apply Forall_cons_iff in Hall as [Hk Hall]. rewrite Hk. now apply IH.
Qed.

(** In a table with ascending keys the tally of a key is its row. *)
Lemma tally_row (x : K) (n : Z) (rows : list (K * Z)) :
  ascending (map fst rows) -> In (x, n) rows -> tally x rows = n.
Proof.
  unfold ascending.
  induction rows as [|[k m] rows IH]; simpl; intros Hs Hin; [contradiction|].
  apply StronglySorted_inv in Hs as [Hs Hall].
  destruct Hin as [[= -> ->] | Hin].
  - rewrite cmp_refl, (tally_absent x rows Hall). lia.
  - assert (Hlt : cmp k x = Lt).
    { rewrite Forall_forall in Hall. apply Hall.
      change x with (fst (x, n)). now apply in_map. }
    rewrite (cmp_lt_gt _ _ Hlt). now apply IH.
Qed.

Lemma occurrences_count (x : K) (keys : list K) :
  occurrences x keys
  = Z.of_nat (List.length
                (filter (fun k => match cmp x k with
                                  | Eq => true
                                  | _ => false
                                  end) keys)).
Proof.
  induction keys as [|k keys IH]; [reflexivity|].
  cbn [occurrences filter]. rewrite IH.
  destruct (cmp x k); cbn [List.length]; lia.
Qed.

Lemma occurrences_positive (x : K) (keys : list K) :
  In x keys -> 1 <= occurrences x keys.
Proof.
  intros Hin. rewrite occurrences_count.
  assert (Hin' : In x (filter (fun k => match cmp x k with
                                        | Eq => true
                                        | _ => false
                                        end) keys))
    by (apply filter_In; split; [exact Hin | now rewrite cmp_refl]).
  destruct (filter _ keys); [contradiction | cbn [List.length]; lia].
Qed.

(** Every row of a grouped count carries an observed key and the number of
    its occurrences, and every observed key has its row. *)
Lemma groupby_size_rows (keys : Series K) :
  (forall (x : K) (n : Z),
      In (x, n) (groupby_size keys) ->
      In x keys /\ n = occurrences x keys /\ 1 <= n)
  /\ (forall x : K,
        In x keys -> In (x, occurrences x keys) (groupby_size keys)).
Proof.
  assert (Hrow : forall x n, In (x, n) (groupby_size keys) ->
                             In x keys /\ n = occurrences x keys).
  { intros x n Hin. split.
    - apply groupby_size_keys. change x with (fst (x, n)).
      now apply in_map.
    - rewrite <- groupby_size_tally. symmetry.
      apply tally_row; [apply groupby_size_ascending | exact Hin]. }
  split.
  - intros x n Hin. destruct (Hrow x n Hin) as [Hk ->].
    repeat split; auto using occurrences_positive.
  - intros x Hk. apply groupby_size_keys in Hk.
    apply in_map_iff in Hk as [[x' n] [E Hin]]. simpl in E. subst x'.
    destruct (Hrow x n Hin) as [_ <-]. exact Hin.
Qed.

End GroupRows.

Lemma pair_cmp_eqb (o o' a a' : string) :
  match cmp (o, a) (o', a') with Eq => true | _ => false end
  = String.eqb o' o && String.eqb a' a.
Proof.
  destruct (cmp (o, a) (o', a')) eqn:E.
  - apply cmp_eq in E. injection E as -> ->. now rewrite !String.eqb_refl.
  - destruct (String.eqb_spec o' o) as [-> |]; [|reflexivity].
    destruct (String.eqb_spec a' a) as [-> |]; [|reflexivity].
    now rewrite cmp_refl in E.
  - destruct (String.eqb_spec o' o) as [-> |]; [|reflexivity].
    destruct (String.eqb_spec a' a) as [-> |]; [|reflexivity].
    now rewrite cmp_refl in E.
Qed.

Lemma tenure_cmp_eqb (y y' : Z) (a a' : string) :
  match cmp (y, a) (y', a') with Eq => true | _ => false end
  = (y' =? y) && String.eqb a' a.
Proof.
  destruct (cmp (y, a) (y', a')) eqn:E.
  - apply cmp_eq in E. injection E as -> ->.
    now rewrite Z.eqb_refl, String.eqb_refl.
  - destruct (Z.eqb_spec y' y) as [-> |]; [|reflexivity].
    destruct (String.eqb_spec a' a) as [-> |]; [|reflexivity].
    now rewrite cmp_refl in E.
  - destruct (Z.eqb_spec y' y) as [-> |]; [|reflexivity].
    destruct (String.eqb_spec a' a) as [-> |]; [|reflexivity].
    now rewrite cmp_refl in E.
Qed.

(** ** Leavers across the charts *)

Section AttritionSplit.
Context {A : Type} `{OrdLaws A}.

Lemma bump_with_attrition (flag : string) (k : A * string)
  (acc : list ((A * string) * Z)) :
  sum (map snd (with_attrition flag (bump k acc)))
  = sum (map snd (with_attrition flag acc))
    + Z.b2z (String.eqb (snd k) flag).
Proof.
  unfold sum, with_attrition.
  induction acc as [|[k' n] acc IH]; cbn [bump].
  - cbn [filter fst snd]. destruct (String.eqb (snd k) flag); simpl; lia.
  - destruct (cmp k k') eqn:E.
    + apply cmp_eq in E. subst k'. cbn [filter fst snd].
      destruct (String.eqb (snd k) flag); cbn [map snd fold_right Z.b2z];
        lia.
    + cbn [filter fst snd].
      destruct (String.eqb (snd k) flag), (String.eqb (snd k') flag);
        cbn [map snd fold_right Z.b2z]; lia.
    + cbn [filter fst snd].
      destruct (String.eqb (snd k') flag);
        cbn [map snd fold_right]; rewrite IH; lia.
Qed.

Lemma groupby_with_attrition (flag : string) (keys : Series (A * string)) :
  sum (map snd (with_attrition flag (groupby_size keys)))
  = Z.of_nat (List.length
                (filter (fun k => String.eqb (snd k) flag) keys)).
Proof.
  unfold groupby_size.
  assert (Hgen : forall acc,
             sum (map snd (with_attrition flag
                             (fold_left (fun acc k => bump k acc) keys acc)))
             = sum (map snd (with_attrition flag acc))
               + Z.of_nat (List.length
                             (filter (fun k => String.eqb (snd k) flag)
                                keys))).
  { induction keys as [|k keys IH]; intros acc; cbn [fold_left filter].
    - simpl. lia.
    - rewrite IH, bump_with_attrition.
      destruct (String.eqb (snd k) flag); cbn [List.length Z.b2z]; lia. }
  rewrite Hgen. reflexivity.
Qed.

End AttritionSplit.

(** ** The recap table *)

Lemma prefix_iff (sub s : string) :
  String.prefix sub s = true <-> exists t : string, s = (sub ++ t)%string.
Proof.
  revert s. induction sub as [|a sub IH]; intros [|b s]; simpl.
  - split; [intros _; now exists ""%string | reflexivity].
  - split; [intros _; now exists (String b s) | reflexivity].
  - split; [discriminate | intros [t [=]]].
  - destruct (Ascii.ascii_dec a b) as [-> | Hne].
    + rewrite IH. split; intros [t Ht]; exists t; congruence.
    + split; [discriminate | intros [t [= E _]]; congruence].
Qed.

(** [sub in s] holds exactly when [s] is [sub] between two strings. *)
Lemma contains_iff (sub s : string) :
  contains sub s = true
  <-> exists p t : string, s = (p ++ sub ++ t)%string.
Proof.
  induction s as [|b s IH]; cbn [contains]; rewrite orb_true_iff, prefix_iff.
  - split.
    + intros [[t Ht] | [=]]. now exists ""%string, t.
    + intros [[|a p] [t Ht]]; [left; now exists t | discriminate].
  - rewrite IH. split.
    + intros [[t Ht] | [p [t Ht]]].
      * now exists ""%string, t.
      * exists (String b p), t. simpl. now rewrite Ht.
    + intros [[|a p] [t Ht]].
      * left. now exists t.
      * right. injection Ht as _ Ht. now exists p, t.
Qed.

(** The colour of a risk level.  A level is red exactly when it is
    [Critical], orange exactly when [High] occurs anywhere in it, so that
    [Medium-High] is coloured like [High], and green in every other
    case. *)
Theorem color_risk_cases (val : string) :
  (color_risk val = "color: #ff4b4b; font-weight: bold"%string
   <-> val = "Critical"%string)
  /\ (color_risk val = "color: #ffa15a; font-weight: bold"%string
      <-> exists p t : string, val = (p ++ "High" ++ t)%string)
  /\ (color_risk val = "color: #00cc96; font-weight: bold"%string
      <-> val <> "Critical"%string
          /\ ~ exists p t : string, val = (p ++ "High" ++ t)%string).
Proof.
  assert (Hcrit : contains "High" "Critical" = false) by reflexivity.
  rewrite <- contains_iff. unfold color_risk.
  destruct (String.eqb_spec val "Critical") as [-> | Hne].
  - rewrite Hcrit. cbn. repeat split; try discriminate; try tauto.
  - destruct (contains "High" val); cbn;
      repeat split; try discriminate; try tauto; try congruence.
Qed.

Example recap_table_styles :
  risk_styles
  = [ "color: #ffa15a; font-weight: bold";
      "color: #ffa15a; font-weight: bold";
      "color: #ff4b4b; font-weight: bold";
      "color: #00cc96; font-weight: bold" ]%string.
Proof. reflexivity. Qed.

(** ** What the report takes from the view *)

(** The report has 22 flowables whatever the view, and two views give
    reports that agree everywhere but in the fifth, the paragraph of the
    executive summary. *)
Theorem report_differs_in_summary_only (view1 view2 : DataFrame Row)
  (i : nat) :
  List.length (generate_pdf view1) = 22%nat
  /\ nth_error (generate_pdf view1) 4
     = Some (Paragraph (summary_text view1) Normal)
  /\ (i <> 4%nat ->
      nth_error (generate_pdf view1) i = nth_error (generate_pdf view2) i).
Proof.
  repeat split.
  intros Hi.
  do 22 (destruct i as [|i]; [try reflexivity; congruence|]).
  reflexivity.
Qed.

(** ** One run of the page over the objects *)

Import Objects.

Section HeapFacts.
Variable H : list Obj.

Lemma nth_error_old (ext : list Obj) (r : Ref) (o : Obj) :
  nth_error H r = Some o -> nth_error (H ++ ext) r = Some o.
Proof.
  intros Hr. rewrite nth_error_app1; [exact Hr|].
  apply nth_error_Some. congruence.
Qed.

Lemma nth_error_fresh (ext : list Obj) (k : nat) :
  nth_error (H ++ ext) (List.length H + k)%nat = nth_error ext k.
Proof.
  rewrite nth_error_app2 by lia. f_equal. lia.
Qed.

Lemma update_at_fresh (ext : list Obj) (k : nat) (o : Obj) :
  update_at (List.length H + k)%nat o (H ++ ext) = H ++ update_at k o ext.
Proof.
  induction H as [|x h IH]; simpl; [reflexivity|]. now rewrite IH.
Qed.

Lemma nth_error_first_fresh (ext : list Obj) :
  nth_error (H ++ ext) (List.length H) = nth_error ext 0%nat.
Proof.
  rewrite <- (nth_error_fresh ext 0%nat). f_equal. lia.
Qed.

Lemma update_at_first_fresh (ext : list Obj) (o : Obj) :
  update_at (List.length H) o (H ++ ext) = H ++ update_at 0%nat o ext.
Proof.
  rewrite <- (update_at_fresh ext 0%nat o). f_equal. lia.
Qed.

End HeapFacts.

Lemma update_at_same (h : list Obj) (r : Ref) (o : Obj) :
  nth_error h r = Some o -> update_at r o h = h.
Proof.
  revert r. induction h as [|x h IH]; intros [|r]; simpl; try discriminate.
  - now intros [= ->].
  - intros Hr. now rewrite IH.
Qed.

Lemma update_at_twice (h : list Obj) (r : Ref) (o1 o2 : Obj) :
  update_at r o2 (update_at r o1 h) = update_at r o2 h.
Proof.
  revert r. induction h as [|x h IH]; intros [|r]; simpl; try reflexivity.
  now rewrite IH.
Qed.

Lemma nth_error_update_at (h : list Obj) (r : Ref) (o o' : Obj) :
  nth_error h r = Some o' -> nth_error (update_at r o h) r = Some o.
Proof.
  revert r. induction h as [|x h IH]; intros [|r]; simpl; try discriminate.
  - reflexivity.
  - apply IH.
Qed.

(** The appends leave the story longer by the flowables appended, and
    change nothing else. *)
Lemma append_each_run (xs acc : list Flowable) (ns : list (string * Ref))
  (h : list Obj) (story : Ref) :
  nth_error h story = Some (Story acc) ->
  append_each story xs (mkState ns h)
  = Some (tt, mkState ns (update_at story (Story (acc ++ xs)) h)).
Proof.
  revert acc h. induction xs as [|x xs IH]; intros acc h Hs; cbn [append_each].
  - unfold ret. rewrite app_nil_r, (update_at_same h story _ Hs). reflexivity.
  - unfold bind, append, put. cbn [heap names]. rewrite Hs.
    rewrite (IH (acc ++ [x])).
    + now rewrite update_at_twice, <- app_assoc.
    + now apply nth_error_update_at with (Story acc).
Qed.

(** The call of [generate_pdf] creates three objects behind the heap it
    finds and changes those alone. *)
Lemma call_generate_pdf_run (ns : list (string * Ref)) (h : list Obj)
  (arg : Ref) (view : DataFrame Row) :
  nth_error h arg = Some (Frame view) ->
  call_generate_pdf arg (mkState ns h)
  = Some (List.length h,
          mkState ns (h ++ [ Buffer (Some (generate_pdf view));
                            StyleSheet (Some "#4F46E5"%string);
                            Story (generate_pdf view) ])).
Proof.
  intros Harg. unfold call_generate_pdf, bind, new. cbn [heap names].
  rewrite <- !app_assoc. cbn [app]. rewrite !length_app. cbn [List.length].
  unfold set_title_color, put. cbn [heap names].
  rewrite !nth_error_fresh. cbn [nth_error].
  rewrite update_at_fresh. cbn [update_at].
  unfold frame_of. cbn [heap]. rewrite (nth_error_old h _ arg _ Harg).
  rewrite (append_each_run _ []) by (now rewrite nth_error_fresh).
  rewrite update_at_fresh. cbn [update_at app].
  unfold build, put, ret. cbn [heap names].
  rewrite nth_error_first_fresh, nth_error_fresh. cbn [nth_error].
  now rewrite update_at_first_fresh.
Qed.

(** The state one run of the page leaves behind. *)
Lemma page_run (ns : list (string * Ref)) (h : list Obj) (c : Controls)
  (d : Ref) (raw : DataFrame Row) :
  lookup "df" ns = Some d ->
  nth_error h d = Some (Frame raw) ->
  page c (mkState ns h)
  = Some
      (show (filtered_df raw c),
       if truthy (search_id c)
       then mkState
              (("pdf_file"%string, (List.length h + 2)%nat)
               :: ("filtered_df"%string, (List.length h + 1)%nat)
               :: ("filtered_df"%string, List.length h) :: ns)
              (h ++ [ Frame (getitem raw (filter_mask raw c));
                      Frame (getitem raw (search_mask raw c));
                      Buffer (Some (generate_pdf (filtered_df raw c)));
                      StyleSheet (Some "#4F46E5"%string);
                      Story (generate_pdf (filtered_df raw c)) ])
       else mkState
              (("pdf_file"%string, (List.length h + 1)%nat)
               :: ("filtered_df"%string, List.length h) :: ns)
              (h ++ [ Frame (getitem raw (filter_mask raw c));
                      Buffer (Some (generate_pdf (filtered_df raw c)));
                      StyleSheet (Some "#4F46E5"%string);
                      Story (generate_pdf (filtered_df raw c)) ])).
Proof.
  intros Hname Hobj.
  unfold page, bind, apply_filters, apply_search, filtered_df.
  unfold bind, name, frame_of, new, assign. cbn [names heap].
  rewrite Hname. cbn [names heap]. rewrite Hobj. cbn [names heap].
  destruct (truthy (search_id c)) eqn:Es.
  - cbn [names heap lookup]. change (String.eqb "df" "filtered_df") with false.
    cbv iota. rewrite Hname. cbn [names heap].
    rewrite (nth_error_old h _ d _ Hobj). cbn [names heap lookup].
    change (String.eqb "filtered_df" "filtered_df") with true.
    cbv iota. cbn [names heap].
    rewrite <- !app_assoc. cbn [app]. rewrite !length_app. cbn [List.length].
    rewrite nth_error_fresh. cbn [nth_error].
    rewrite (call_generate_pdf_run _ _ _ (getitem raw (search_mask raw c)))
      by (now rewrite nth_error_fresh).
    unfold ret. cbn [names heap].
    rewrite <- !app_assoc. cbn [app]. rewrite !length_app. cbn [List.length].
    reflexivity.
  - unfold ret. cbn [names heap lookup].
    change (String.eqb "filtered_df" "filtered_df") with true.
    cbv iota. cbn [names heap].
    rewrite nth_error_first_fresh. cbn [nth_error].
    rewrite (call_generate_pdf_run _ _ _ (getitem raw (filter_mask raw c)))
      by (now rewrite nth_error_first_fresh).
    cbn [names heap].
    rewrite <- !app_assoc. cbn [app]. rewrite !length_app. cbn [List.length].
    reflexivity.
Qed.

(** The state does record changes: an in-place change of the table, or a
    rebinding of its name, would show in it. *)
Example changes_are_visible :
  option_map (fun r => nth_error (heap (snd r)) 0)
    (put 0%nat (Frame []) loaded) = Some (Some (Frame []))
  /\ option_map (fun r => lookup "df" (names (snd r)))
       (assign "df" 7%nat loaded) = Some (Some 7%nat).
Proof. split; reflexivity. Qed.

(** C9.  One run of the page, started with [df] bound to the loaded table,
    raises nothing and leaves the table alone: [df] is still bound to the
    same object, that object and every other object that existed before
    are unchanged, although the run rebinds names and changes objects in
    place; the filtered view is an object of its own, created by the run;
    the view built from the four criteria is left intact when the search
    rebinds [filtered_df]; and what is shown is a function of the table
    and the controls alone. *)
Theorem page_leaves_table_untouched (s : State) (c : Controls) (d : Ref)
  (raw : DataFrame Row)
  (Hname : lookup "df" (names s) = Some d)
  (Hobj : nth_error (heap s) d = Some (Frame raw)) :
  exists (shown : Shown) (s' : State),
    page c s = Some (shown, s')
    /\ lookup "df" (names s') = Some d
    /\ nth_error (heap s') d = Some (Frame raw)
    /\ (forall (r : Ref) (o : Obj),
          nth_error (heap s) r = Some o -> nth_error (heap s') r = Some o)
    /\ (exists view : Ref,
          lookup "filtered_df" (names s') = Some view
          /\ (List.length (heap s) <= view)%nat
          /\ nth_error (heap s') view = Some (Frame (filtered_df raw c)))
    /\ nth_error (heap s') (List.length (heap s))
       = Some (Frame (getitem raw (filter_mask raw c)))
    /\ shown = show (filtered_df raw c).
Proof.
  destruct s as [ns h]. cbn [names heap] in *.
  assert (Hkeep : forall ext (r : Ref) (o : Obj),
             nth_error h r = Some o -> nth_error (h ++ ext) r = Some o)
    by (intros ext r o; apply nth_error_old).
  eexists. eexists. split; [apply (page_run ns h c d raw Hname Hobj)|].
  unfold filtered_df.
  destruct (truthy (search_id c)); cbn [names heap lookup];
    change (String.eqb "df" "pdf_file") with false;
    change (String.eqb "df" "filtered_df") with false;
    change (String.eqb "filtered_df" "pdf_file") with false;
    change (String.eqb "filtered_df" "filtered_df") with true;
    cbv iota.
  - repeat split; auto.
    + exists (List.length h + 1)%nat. repeat split; [lia|].
      now rewrite nth_error_fresh.
    + now rewrite nth_error_first_fresh.
  - repeat split; auto.
    + exists (List.length h). repeat split; [lia|].
      now rewrite nth_error_first_fresh.
    + now rewrite nth_error_first_fresh.
Qed.

Lemma page_leaves_table_untouched_witness :
  exists (shown : Shown) (s' : State),
    page Scenario.search_two loaded = Some (shown, s')
    /\ nth_error (heap s') 0 = Some (Frame Scenario.records).
Proof.
  destruct (page_leaves_table_untouched loaded Scenario.search_two 0%nat
              Scenario.records eq_refl eq_refl)
    as [shown [s' [Hrun [_ [Htable _]]]]].
  exists shown, s'. split; assumption.
Defined.

(** ** Grouped counts over the cells the frame holds *)

Section PresentKeys.
Context {A K : Type}.

Lemma present_filter_length (keyf : A -> option K) (p : K -> bool)
  (view : list A) :
  List.length (filter p (Loaded.present (map keyf view)))
  = List.length
      (filter (fun r => match keyf r with
                        | Some k => p k
                        | None => false
                        end) view).
Proof.
  induction view as [|r view IH]; [reflexivity|].
  cbn [map Loaded.present filter].
  destruct (keyf r) as [k|]; cbn [Loaded.present filter]; [|exact IH].
  destruct (p k); cbn [List.length]; now rewrite IH.
Qed.

Lemma present_length (keyf : A -> option K) (view : list A) :
  List.length (Loaded.present (map keyf view))
  = List.length (filter (fun r => Loaded.filled (keyf r)) view).
Proof.
  induction view as [|r view IH]; [reflexivity|].
  cbn [map Loaded.present filter].
  destruct (keyf r); cbn [Loaded.filled List.length]; now rewrite IH.
Qed.

Lemma present_In (keyf : A -> option K) (view : list A) (r : A) (k : K) :
  In r view -> keyf r = Some k -> In k (Loaded.present (map keyf view)).
Proof.
  induction view as [|x view IH]; [contradiction|].
  cbn [map Loaded.present]. intros [-> | Hin] Hk.
  - rewrite Hk. now left.
  - destruct (keyf x); [right|]; now apply IH.
Qed.

Lemma filter_length_ext (p q : A -> bool) (view : list A) :
  (forall r, p r = q r) ->
  List.length (filter p view) = List.length (filter q view).
Proof.
  intros Hpq. now rewrite (filter_ext p q Hpq).
Qed.

Lemma filter_twice_length (p l q : A -> bool) (view : list A) :
  (forall r, p r = l r && q r) ->
  List.length (filter p view) = List.length (filter q (filter l view)).
Proof.
  intros Hp. induction view as [|r view IH]; [reflexivity|].
  cbn [filter]. rewrite Hp.
  destruct (l r); cbn [andb filter]; [|exact IH].
  destruct (q r); cbn [List.length]; now rewrite IH.
Qed.

End PresentKeys.

Lemma key_of_filled {A B : Type} (a : option A) (b : option B) :
  Loaded.filled (Loaded.key_of a b) = Loaded.filled a && Loaded.filled b.
Proof.
  now destruct a, b.
Qed.

(** On records without missing cells the counts are those of the complete
    table. *)
Lemma loaded_counts_of_complete (view : DataFrame Row) :
  Loaded.ot_data (map Loaded.cells_of view) = ot_data view
  /\ Loaded.fig8_data (map Loaded.cells_of view) = fig8_data view.
Proof.
  unfold Loaded.ot_data, Loaded.fig8_data, Loaded.groupby_size_dropna,
    ot_data, fig8_data.
  rewrite !map_map. cbn [Loaded.cells_of Loaded.OverTime_cell
    Loaded.Attrition_cell Loaded.YearsAtCompany_cell Loaded.key_of].
  split; f_equal; induction view as [|r view IH]; cbn [map Loaded.present];
    congruence.
Qed.

(** C10, as the code has it.  The counts of each grouping add up to the
    number of records of the view whose two key cells are both present:
    a record with a missing key cell is counted in no group.  When no key
    cell is missing this is the number of records of the view, and so it
    is for views made of complete records. *)
Theorem grouped_counts_cover_present_keys (view : DataFrame Loaded.KeyCells) :
  sum (map snd (Loaded.ot_data view))
  = len (filter (fun r => Loaded.filled (Loaded.OverTime_cell r)
                          && Loaded.filled (Loaded.Attrition_cell r)) view)
  /\ sum (map snd (Loaded.fig8_data view))
     = len (filter (fun r => Loaded.filled (Loaded.YearsAtCompany_cell r)
                             && Loaded.filled (Loaded.Attrition_cell r)) view)
  /\ ((forall r, In r view ->
         Loaded.filled (Loaded.OverTime_cell r) = true
         /\ Loaded.filled (Loaded.Attrition_cell r) = true
         /\ Loaded.filled (Loaded.YearsAtCompany_cell r) = true) ->
      sum (map snd (Loaded.ot_data view)) = len view
      /\ sum (map snd (Loaded.fig8_data view)) = len view)
  /\ (forall complete : DataFrame Row,
        sum (map snd (Loaded.ot_data (map Loaded.cells_of complete)))
        = len complete
        /\ sum (map snd (Loaded.fig8_data (map Loaded.cells_of complete)))
           = len complete).
Proof.
  assert (Hot : sum (map snd (Loaded.ot_data view))
                = len (filter (fun r => Loaded.filled (Loaded.OverTime_cell r)
                                        && Loaded.filled (Loaded.Attrition_cell r))
                         view)).
  { unfold Loaded.ot_data, Loaded.groupby_size_dropna, len.
    rewrite groupby_size_total, present_length. f_equal.
    apply filter_length_ext. intros r. apply key_of_filled. }
  assert (Hfig : sum (map snd (Loaded.fig8_data view))
                 = len (filter
                          (fun r => Loaded.filled (Loaded.YearsAtCompany_cell r)
                                    && Loaded.filled (Loaded.Attrition_cell r))
                          view)).
  { unfold Loaded.fig8_data, Loaded.groupby_size_dropna, len.
    rewrite groupby_size_total, present_length. f_equal.
    apply filter_length_ext. intros r. apply key_of_filled. }
  split; [exact Hot|]. split; [exact Hfig|]. split.
  - intros Hfull. rewrite Hot, Hfig.
    split; f_equal; apply filter_all; intros r Hr;
      destruct (Hfull r Hr) as [H1 [H2 H3]];
      now rewrite ?H1, ?H2, ?H3.
  - intros complete.
    destruct (loaded_counts_of_complete complete) as [-> ->].
    unfold ot_data, fig8_data, len.
    now rewrite !groupby_size_total, !length_map.
Qed.

(** C10, as stated, fails: of three records, one without its overtime cell
    and one without its tenure cell, each grouping counts only two. *)
Lemma missing_key_cell_is_not_counted :
  len Loaded.with_gaps = 3
  /\ sum (map snd (Loaded.ot_data Loaded.with_gaps)) = 2
  /\ sum (map snd (Loaded.fig8_data Loaded.with_gaps)) = 2.
Proof.
  repeat split.
Qed.

(** The rows behind chart 4.  Each row carries an overtime and attrition
    pair together with the number of records of the view holding exactly
    that pair, at least one; every record with both cells present has the
    row of its pair, and a record with a missing key cell is in no
    count. *)
Theorem ot_data_rows (view : DataFrame Loaded.KeyCells) :
  (forall (o a : string) (n : Z),
      In ((o, a), n) (Loaded.ot_data view) ->
      n = len (filter
                 (fun r => Loaded.holds_text o (Loaded.OverTime_cell r)
                           && Loaded.holds_text a (Loaded.Attrition_cell r))
                 view)
      /\ 1 <= n)
  /\ (forall (r : Loaded.KeyCells) (o a : string),
        In r view ->
        Loaded.OverTime_cell r = Some o ->
        Loaded.Attrition_cell r = Some a ->
        exists n : Z, In ((o, a), n) (Loaded.ot_data view)).
Proof.
  unfold Loaded.ot_data, Loaded.groupby_size_dropna.
  set (keyf := fun r => Loaded.key_of (Loaded.OverTime_cell r)
                          (Loaded.Attrition_cell r)).
  destruct (groupby_size_rows (Loaded.present (map keyf view)))
    as [Hrows Hcover].
  split.
  - intros o a n Hin. destruct (Hrows _ _ Hin) as [_ [-> Hpos]].
    split; [|exact Hpos].
    rewrite occurrences_count, present_filter_length. unfold len.
    f_equal. apply filter_length_ext. intros r. unfold keyf.
    destruct (Loaded.OverTime_cell r) as [o'|],
             (Loaded.Attrition_cell r) as [a'|];
      cbn [Loaded.key_of Loaded.holds_text andb];
      rewrite ?andb_false_r; try reflexivity.
    apply pair_cmp_eqb.
  - intros r o a Hr Ho Ha. eexists. apply Hcover.
    apply (present_In keyf view r); [exact Hr|].
    unfold keyf. now rewrite Ho, Ha.
Qed.

(** The rows behind chart 8: the same for the pairs of tenure and
    attrition. *)
Theorem fig8_data_rows (view : DataFrame Loaded.KeyCells) :
  (forall (y : Z) (a : string) (n : Z),
      In ((y, a), n) (Loaded.fig8_data view) ->
      n = len (filter
                 (fun r => Loaded.holds_number y (Loaded.YearsAtCompany_cell r)
                           && Loaded.holds_text a (Loaded.Attrition_cell r))
                 view)
      /\ 1 <= n)
  /\ (forall (r : Loaded.KeyCells) (y : Z) (a : string),
        In r view ->
        Loaded.YearsAtCompany_cell r = Some y ->
        Loaded.Attrition_cell r = Some a ->
        exists n : Z, In ((y, a), n) (Loaded.fig8_data view)).
Proof.
  unfold Loaded.fig8_data, Loaded.groupby_size_dropna.
  set (keyf := fun r => Loaded.key_of (Loaded.YearsAtCompany_cell r)
                          (Loaded.Attrition_cell r)).
  destruct (groupby_size_rows (Loaded.present (map keyf view)))
    as [Hrows Hcover].
  split.
  - intros y a n Hin. destruct (Hrows _ _ Hin) as [_ [-> Hpos]].
    split; [|exact Hpos].
    rewrite occurrences_count, present_filter_length. unfold len.
    f_equal. apply filter_length_ext. intros r. unfold keyf.
    destruct (Loaded.YearsAtCompany_cell r) as [y'|],
             (Loaded.Attrition_cell r) as [a'|];
      cbn [Loaded.key_of Loaded.holds_number Loaded.holds_text andb];
      rewrite ?andb_false_r; try reflexivity.
    apply tenure_cmp_eqb.
  - intros r y a Hr Hy Ha. eexists. apply Hcover.
    apply (present_In keyf view r); [exact Hr|].
    unfold keyf. now rewrite Hy, Ha.
Qed.

Lemma loaded_leavers_rows (view : DataFrame Loaded.KeyCells) :
  Loaded.leavers view
  = filter (fun r => Loaded.holds_text "Yes" (Loaded.Attrition_cell r)) view.
Proof.
  unfold Loaded.leavers, Loaded.eq_scalar, col.
  now rewrite map_map, getitem_map.
Qed.

(** Charts 4, 5 and 8 on the leavers.  In the overtime counts the rows with
    attrition [Yes] add up to the number of records in the frame of chart
    5 whose overtime cell is present, in the tenure counts to the number
    of those whose tenure cell is present; when no leaver lacks either
    cell, both add up to the number of records in the frame of chart 5. *)
Theorem charts_agree_on_leavers (view : DataFrame Loaded.KeyCells) :
  sum (map snd (with_attrition "Yes" (Loaded.ot_data view)))
  = len (filter (fun r => Loaded.filled (Loaded.OverTime_cell r))
           (Loaded.leavers view))
  /\ sum (map snd (with_attrition "Yes" (Loaded.fig8_data view)))
     = len (filter (fun r => Loaded.filled (Loaded.YearsAtCompany_cell r))
              (Loaded.leavers view))
  /\ ((forall r, In r (Loaded.leavers view) ->
         Loaded.filled (Loaded.OverTime_cell r) = true
         /\ Loaded.filled (Loaded.YearsAtCompany_cell r) = true) ->
      sum (map snd (with_attrition "Yes" (Loaded.ot_data view)))
      = len (Loaded.leavers view)
      /\ sum (map snd (with_attrition "Yes" (Loaded.fig8_data view)))
         = len (Loaded.leavers view)).
Proof.
  assert (Hot : sum (map snd (with_attrition "Yes" (Loaded.ot_data view)))
                = len (filter (fun r => Loaded.filled (Loaded.OverTime_cell r))
                         (Loaded.leavers view))).
  { unfold Loaded.ot_data, Loaded.groupby_size_dropna, len.
    rewrite groupby_with_attrition, present_filter_length,
      loaded_leavers_rows.
    f_equal. apply filter_twice_length. intros r.
    destruct (Loaded.OverTime_cell r), (Loaded.Attrition_cell r);
      cbn [Loaded.key_of Loaded.holds_text Loaded.filled snd andb];
      rewrite ?andb_true_r, ?andb_false_r; reflexivity. }
  assert (Hfig : sum (map snd (with_attrition "Yes" (Loaded.fig8_data view)))
                 = len (filter
                          (fun r => Loaded.filled (Loaded.YearsAtCompany_cell r))
                          (Loaded.leavers view))).
  { unfold Loaded.fig8_data, Loaded.groupby_size_dropna, len.
    rewrite groupby_with_attrition, present_filter_length,
      loaded_leavers_rows.
    f_equal. apply filter_twice_length. intros r.
    destruct (Loaded.YearsAtCompany_cell r), (Loaded.Attrition_cell r);
      cbn [Loaded.key_of Loaded.holds_text Loaded.filled snd andb];
      rewrite ?andb_true_r, ?andb_false_r; reflexivity. }
  split; [exact Hot|]. split; [exact Hfig|].
  intros Hfull. rewrite Hot, Hfig.
  split; f_equal; apply filter_all; intros r Hr;
    destruct (Hfull r Hr) as [H1 H2]; assumption.
Qed.

